(** * apns: the delivery client of [client.go]

    A shallow embedding of the [Client] type of package [apns] and of its
    methods ([Send], [Connect], [connectAndWrite], [openConnection],
    [tryReset], [saveErr], [startRead], [getCertificate], [Close],
    [handleErrResponse]).

    Every method of [Client] runs between [Lock] and the deferred [Unlock]
    of the client's mutex, so a method body is one atomic step on the
    client; executions are sequences of such steps.  A [go] statement is
    recorded as an event naming the goroutine that was started; the body of
    each goroutine is a definition of its own.  Results of the network, of
    the TLS library and of the file system come from an environment. *)

From Stdlib Require Import ZArith List Ascii String Bool Lia.
From Stdlib Require Import Strings.Byte.
Import ListNotations.
Open Scope Z_scope.

(** ** Data *)

(** Go's [error]: a non-nil error carries its message; [nil] is [None]. *)
Definition error := string.

Definition bytes := list byte.

(** A non-nil [*PushNotification] is the address of the notification in the
    store of the machine; two pointers are the same notification exactly
    when the addresses are equal. *)
Definition pnPtr := nat.

(** A [*tls.Conn]: [None] is the nil pointer, [Some k] the k-th connection
    object that [tls.Client] allocated. *)
Definition connId := nat.
Definition connPtr := option connId.

(** Modelled from the spec: the type [PushNotification] is declared outside
    [client.go].  The spec's Notification is an opaque payload plus the
    mutable sequence field [Identifier] (an [int32]) that [Send] assigns. *)
Record PushNotification := mkPn {
  Identifier : Z;
  Payload : bytes
}.

(** Modelled from the spec: the type [errResponse] is declared outside
    [client.go].  The spec's FailureReport is
    [{command: byte, status: byte, sequence: int32}]. *)
Record errResponse := mkErrResponse {
  Command : Z;
  Status : Z;
  RspIdentifier : Z
}.

(** [type SendErr struct { Pn *PushNotification; Res *errResponse }] *)
Record SendErr := mkSendErr {
  Pn : pnPtr;
  Res : option errResponse
}.

(** What the code inspects of a [tls.Certificate]: the [PrivateKey] field,
    nil in the zero value. *)
Record Certificate := mkCert {
  PrivateKey : option string
}.

(** ** 32-bit integers *)

Definition wrap32 (z : Z) : Z := (z + 2^31) mod 2^32 - 2^31.

(** Go's [%] on integers truncates towards zero: it is [Z.rem]. *)
Definition rem32 (a b : Z) : Z := wrap32 (Z.rem a b).
Definition add32 (a b : Z) : Z := wrap32 (a + b).

(** ** The replay queue [pnQueue] *)

(** Modelled from the spec: [pnQueue], [newPnQueue], [Append], [Tail] and
    [Clear] are declared outside [client.go].  The spec's Replay Queue is a
    bounded, insertion-ordered sequence of notifications of fixed capacity;
    the queue holds the pointers that were passed to [Send]. *)
Record pnQueue := mkQueue {
  items : list pnPtr;
  limit : Z
}.

(** Modelled from the spec: [newPnQueue(limit)] is an empty queue of the
    given capacity. *)
Definition newPnQueue (lim : Z) : pnQueue := mkQueue [] lim.

(** Modelled from the spec: [append] "evicts the oldest entry first if at
    capacity; never blocks, never fails", keeping size <= C. *)
Definition Append (q : pnQueue) (pn : pnPtr) : pnQueue :=
  let l := items q ++ [pn] in
  mkQueue (if Z.of_nat (List.length l) >? limit q then tl l else l) (limit q).

(** Modelled from the spec: the lookup of [drainFrom] is a "scan from oldest
    to newest; on match, returns the matched entry and every later entry";
    in the spec's scenario (entries 0,1,2, report for 1) notification 1 is the
    matched one and notification 2 the one that is resubmitted.  The sequence
    number of an entry is read through its pointer. *)
Fixpoint tailFrom (heap : pnPtr -> PushNotification) (id : Z) (l : list pnPtr)
  : option pnPtr * list pnPtr :=
  match l with
  | [] => (None, [])
  | p :: rest =>
      if Identifier (heap p) =? id then (Some p, rest)
      else tailFrom heap id rest
  end.

Definition Tail (q : pnQueue) (heap : pnPtr -> PushNotification) (id : Z)
  : option pnPtr * list pnPtr :=
  tailFrom heap id (items q).

(** Modelled from the spec: [clear()] "drops all entries". *)
Definition Clear (q : pnQueue) : pnQueue := mkQueue [] (limit q).

(** ** Channels *)

(** [errChan chan *errResponse]: the buffered values, the capacity given to
    [make] and whether [close] was called. *)
Record Chan := mkChan {
  buf : list errResponse;
  cap : Z;
  closed : bool
}.

Definition makeChan (n : Z) : Chan := mkChan [] n false.

(** ** The client *)

Record Client := mkClient {
  Gateway : string;
  CertificateFile : string;
  CertificateBase64 : string;
  KeyFile : string;
  KeyBase64 : string;
  certificate : Certificate;
  apnsConnection : connPtr;
  errChan : Chan;
  sentQ : pnQueue;
  counter : Z;
  running : bool
}.

Definition set_certificate (c : Client) (x : Certificate) : Client :=
  mkClient (Gateway c) (CertificateFile c) (CertificateBase64 c) (KeyFile c)
    (KeyBase64 c) x (apnsConnection c) (errChan c) (sentQ c) (counter c)
    (running c).

Definition set_apnsConnection (c : Client) (x : connPtr) : Client :=
  mkClient (Gateway c) (CertificateFile c) (CertificateBase64 c) (KeyFile c)
    (KeyBase64 c) (certificate c) x (errChan c) (sentQ c) (counter c)
    (running c).

Definition set_errChan (c : Client) (x : Chan) : Client :=
  mkClient (Gateway c) (CertificateFile c) (CertificateBase64 c) (KeyFile c)
    (KeyBase64 c) (certificate c) (apnsConnection c) x (sentQ c) (counter c)
    (running c).

Definition set_sentQ (c : Client) (x : pnQueue) : Client :=
  mkClient (Gateway c) (CertificateFile c) (CertificateBase64 c) (KeyFile c)
    (KeyBase64 c) (certificate c) (apnsConnection c) (errChan c) x (counter c)
    (running c).

Definition set_counter (c : Client) (x : Z) : Client :=
  mkClient (Gateway c) (CertificateFile c) (CertificateBase64 c) (KeyFile c)
    (KeyBase64 c) (certificate c) (apnsConnection c) (errChan c) (sentQ c) x
    (running c).

Definition set_running (c : Client) (x : bool) : Client :=
  mkClient (Gateway c) (CertificateFile c) (CertificateBase64 c) (KeyFile c)
    (KeyBase64 c) (certificate c) (apnsConnection c) (errChan c) (sentQ c)
    (counter c) x.

(** [MAX_SEND_Q = 10000] *)
Definition MAX_SEND_Q : Z := 10000.

(** Modelled from the spec: [ERR_RESPONSE_LEN] is declared outside
    [client.go]; the spec's error frame is "fixed 6 bytes". *)
Definition ERR_RESPONSE_LEN : nat := 6%nat.

(** ** Events *)

(** The goroutines that the code starts with [go]. *)
Inductive Task :=
| GoConsumeErrChan
| GoErrChannel (e : SendErr)
| GoReSend (l : list pnPtr)
| GoStartRead (conn : connId)
| GoTryReset (conn : connId)
| GoSaveErr (rsp : errResponse)
| GoConnClose (conn : connId).

(** The lines written with [log.Printf] and [log.Println]. *)
Inductive LogLine :=
| LogHandleErrResponse (id : Z) (errPn : option pnPtr)
| LogMaxSendQTooShort (n : Z)
| LogReSendErr (err : error) (id : Z)
| LogWriteErrorTryAgain (err : error)
| LogOpenConnection
| LogCertErr (err : error)
| LogOpenConnectionErr (err : error)
| LogTlsHandshakeErr (err : error)
| LogReadErr (err : error)
| LogReadIdentifierErr (err : error)
| LogUnknownErrResponse (buffer : bytes)
| LogUnknownErrStatus (buffer : bytes)
| LogGetErrResponse (rsp : errResponse) (msg : string).

Inductive Event :=
| Log (l : LogLine)
| Go (t : Task)
| IoLoadX509KeyPair (certFile keyFile : string) (err : option error)
| IoX509KeyPair (certBlock keyBlock : string) (err : option error)
| IoDialTimeout (gateway : string) (err : option error)
| IoHandshake (conn : connId) (serverName : string) (err : option error)
| IoSetWriteDeadline (conn : connId) (err : option error)
| IoWrite (conn : connId) (payload : bytes) (err : option error)
| IoRead (conn : connId) (data : bytes) (err : option error)
| IoClose (conn : connId)
| ChanSend (rsp : errResponse)
| ChanClose.

(** ** The environment *)

(** The constants and collaborators that [client.go] uses and does not
    declare, and the answers of the world outside the process.  An answer
    may depend on how many calls of the same kind came before it. *)
Record Env := mkEnv {
  (** the bound of the sequence counter *)
  IdentifierUbound : Z;
  (** the command byte of an error frame *)
  ERR_RESPONSE_CMD : Z;
  (** the table of status codes *)
  ApplePushResponses : Z -> option string;
  (** [pn.ToBytes()] *)
  ToBytes : PushNotification -> bytes * option error;
  (** [tls.LoadX509KeyPair(certFile, keyFile)] *)
  LoadX509KeyPair : nat -> string -> string -> Certificate * option error;
  (** [tls.X509KeyPair(certPEMBlock, keyPEMBlock)] *)
  X509KeyPair : nat -> string -> string -> Certificate * option error;
  (** [net.DialTimeout("tcp", gateway, TIME_OUT)] *)
  DialTimeout : nat -> string -> option error;
  (** [tlsConn.Handshake()] *)
  Handshake : nat -> connId -> option error;
  (** [conn.SetWriteDeadline(time.Now().Add(TIME_OUT))] *)
  SetWriteDeadline : nat -> connId -> option error;
  (** [conn.Write(payload)] *)
  Write : nat -> connId -> bytes -> option error;
  (** [conn.Read(buffer)]: the bytes received and the error *)
  Read : connId -> bytes * option error
}.

(** ** The machine *)

(** How many calls of each kind the process has made. *)
Record Calls := mkCalls {
  nCert : nat;
  nDial : nat;
  nHandshake : nat;
  nDeadline : nat;
  nWrite : nat
}.

Record Machine := mkMachine {
  cl : Client;
  heap : pnPtr -> PushNotification;
  calls : Calls;
  nextConn : connId;
  trace : list Event
}.

(** The outcome of a step: it returns, it panics, or it blocks for ever on a
    channel while it holds the lock. *)
Inductive Result (A : Type) :=
| Ok (a : A) (m : Machine)
| Panic (msg : string) (m : Machine)
| Block (m : Machine).
Arguments Ok {A} a m.
Arguments Panic {A} msg m.
Arguments Block {A} m.

(** The machine in which a step ended. *)
Definition machineOf {A} (r : Result A) : Machine :=
  match r with
  | Ok _ m => m
  | Panic _ m => m
  | Block m => m
  end.

Definition M (A : Type) := Machine -> Result A.

Definition ret {A} (a : A) : M A := fun m => Ok a m.

Definition bind {A B} (x : M A) (f : A -> M B) : M B :=
  fun m =>
    match x m with
    | Ok a m' => f a m'
    | Panic msg m' => Panic msg m'
    | Block m' => Block m'
    end.

Declare Scope go_scope.
Delimit Scope go_scope with go.
Notation "x <- e1 ;; e2" := (bind e1 (fun x => e2))
  (at level 61, e1 at next level, right associativity) : go_scope.
Notation "e1 ;; e2" := (bind e1 (fun _ => e2))
  (at level 61, right associativity) : go_scope.
Open Scope go_scope.

Definition panic {A} (msg : string) : M A := fun m => Panic msg m.

Definition getClient : M Client := fun m => Ok (cl m) m.

Definition putClient (c : Client) : M unit :=
  fun m => Ok tt (mkMachine c (heap m) (calls m) (nextConn m) (trace m)).

Definition modifyClient (f : Client -> Client) : M unit :=
  c <- getClient ;; putClient (f c).

Definition emit (e : Event) : M unit :=
  fun m => Ok tt (mkMachine (cl m) (heap m) (calls m) (nextConn m) (trace m ++ [e])).

Definition logLine (l : LogLine) : M unit := emit (Log l).
Definition go (t : Task) : M unit := emit (Go t).

Definition readPn (p : pnPtr) : M PushNotification := fun m => Ok (heap m p) m.

Definition writePn (p : pnPtr) (v : PushNotification) : M unit :=
  fun m => Ok tt (mkMachine (cl m)
                    (fun q => if Nat.eqb q p then v else heap m q)
                    (calls m) (nextConn m) (trace m)).

Definition getCalls : M Calls := fun m => Ok (calls m) m.

Definition putCalls (k : Calls) : M unit :=
  fun m => Ok tt (mkMachine (cl m) (heap m) k (nextConn m) (trace m)).

(** [tls.Client(conn, conf)] allocates the next connection object. *)
Definition newConn : M connId :=
  fun m => Ok (nextConn m)
              (mkMachine (cl m) (heap m) (calls m) (S (nextConn m)) (trace m)).

(** ** Calls into the environment *)

Definition bumpCert (k : Calls) : Calls :=
  mkCalls (S (nCert k)) (nDial k) (nHandshake k) (nDeadline k) (nWrite k).
Definition bumpDial (k : Calls) : Calls :=
  mkCalls (nCert k) (S (nDial k)) (nHandshake k) (nDeadline k) (nWrite k).
Definition bumpHandshake (k : Calls) : Calls :=
  mkCalls (nCert k) (nDial k) (S (nHandshake k)) (nDeadline k) (nWrite k).
Definition bumpDeadline (k : Calls) : Calls :=
  mkCalls (nCert k) (nDial k) (nHandshake k) (S (nDeadline k)) (nWrite k).
Definition bumpWrite (k : Calls) : Calls :=
  mkCalls (nCert k) (nDial k) (nHandshake k) (nDeadline k) (S (nWrite k)).

(** [strings.Split(s, ":")[0]]: the text before the first colon. *)
Fixpoint beforeColon (s : string) : string :=
  match s with
  | EmptyString => EmptyString
  | String c rest =>
      if Ascii.eqb c ":"%char then EmptyString else String c (beforeColon rest)
  end.

Section Model.

Variable E : Env.

Definition ioLoadX509KeyPair (certFile keyFile : string) : M (Certificate * option error) :=
  k <- getCalls ;;
  putCalls (bumpCert k) ;;
  let r := LoadX509KeyPair E (nCert k) certFile keyFile in
  emit (IoLoadX509KeyPair certFile keyFile (snd r)) ;;
  ret r.

Definition ioX509KeyPair (certBlock keyBlock : string) : M (Certificate * option error) :=
  k <- getCalls ;;
  putCalls (bumpCert k) ;;
  let r := X509KeyPair E (nCert k) certBlock keyBlock in
  emit (IoX509KeyPair certBlock keyBlock (snd r)) ;;
  ret r.

Definition ioDialTimeout (gateway : string) : M (option error) :=
  k <- getCalls ;;
  putCalls (bumpDial k) ;;
  let r := DialTimeout E (nDial k) gateway in
  emit (IoDialTimeout gateway r) ;;
  ret r.

Definition ioHandshake (conn : connId) (serverName : string) : M (option error) :=
  k <- getCalls ;;
  putCalls (bumpHandshake k) ;;
  let r := Handshake E (nHandshake k) conn in
  emit (IoHandshake conn serverName r) ;;
  ret r.

(** A method call on the nil [*tls.Conn] dereferences nil. *)
Definition ioSetWriteDeadline (conn : connPtr) : M (option error) :=
  match conn with
  | None => panic "nil pointer dereference"
  | Some cn =>
      k <- getCalls ;;
      putCalls (bumpDeadline k) ;;
      let r := SetWriteDeadline E (nDeadline k) cn in
      emit (IoSetWriteDeadline cn r) ;;
      ret r
  end.

Definition ioWrite (conn : connPtr) (payload : bytes) : M (option error) :=
  match conn with
  | None => panic "nil pointer dereference"
  | Some cn =>
      k <- getCalls ;;
      putCalls (bumpWrite k) ;;
      let r := Write E (nWrite k) cn payload in
      emit (IoWrite cn payload r) ;;
      ret r
  end.

(** [conn.Read(buffer)] on a zeroed buffer of [ERR_RESPONSE_LEN] bytes: the
    buffer afterwards holds the bytes received, at most its length, then
    zeros. *)
Definition ioRead (conn : connId) : M (bytes * option error) :=
  let r := Read E conn in
  let buffer := firstn ERR_RESPONSE_LEN (fst r ++ repeat x00 ERR_RESPONSE_LEN) in
  emit (IoRead conn buffer (snd r)) ;;
  ret (buffer, snd r).

Definition ioClose (conn : connId) : M unit := emit (IoClose conn).

(** ** Channel operations on [errChan] *)

(** [p.errChan <- errRsp] *)
Definition chanSend (rsp : errResponse) : M unit :=
  fun m =>
    let ch := errChan (cl m) in
    if closed ch then Panic "send on closed channel" m
    else if Z.of_nat (List.length (buf ch)) <? cap ch then
      (modifyClient (fun c => set_errChan c (mkChan (buf ch ++ [rsp]) (cap ch) (closed ch))) ;;
       emit (ChanSend rsp)) m
    else Block m.

(** [close(client.errChan)] *)
Definition chanClose : M unit :=
  fun m =>
    let ch := errChan (cl m) in
    if closed ch then Panic "close of closed channel" m
    else
      (modifyClient (fun c => set_errChan c (mkChan (buf ch) (cap ch) true)) ;;
       emit ChanClose) m.

(** One receive of [for res := range c.errChan]: the oldest buffered value;
    [None] when the channel is closed and drained, which ends the loop. *)
Definition chanRecv : M (option errResponse) :=
  fun m =>
    let ch := errChan (cl m) in
    match buf ch with
    | r :: rest =>
        (modifyClient (fun c => set_errChan c (mkChan rest (cap ch) (closed ch))) ;;
         ret (Some r)) m
    | [] => if closed ch then Ok None m else Block m
    end.

(** ** The methods of [Client] *)

Definition getCertificate : M (option error) :=
  c <- getClient ;;
  match PrivateKey (certificate c) with
  | None =>
      r <- (if (String.length (CertificateBase64 c) =? 0)%nat
               && (String.length (KeyBase64 c) =? 0)%nat
            then ioLoadX509KeyPair (CertificateFile c) (KeyFile c)
            else ioX509KeyPair (CertificateBase64 c) (KeyBase64 c)) ;;
      modifyClient (fun c => set_certificate c (fst r)) ;;
      ret (snd r)
  | Some _ => ret None
  end.

Definition openConnection : M (option error) :=
  logLine LogOpenConnection ;;
  err <- getCertificate ;;
  match err with
  | Some e => logLine (LogCertErr e) ;; ret (Some e)
  | None =>
      c <- getClient ;;
      let serverName := beforeColon (Gateway c) in
      err <- ioDialTimeout (Gateway c) ;;
      match err with
      | Some e => logLine (LogOpenConnectionErr e) ;; ret (Some e)
      | None =>
          tlsConn <- newConn ;;
          err <- ioHandshake tlsConn serverName ;;
          match err with
          | Some e => logLine (LogTlsHandshakeErr e) ;; ret (Some e)
          | None =>
              modifyClient (fun c => set_apnsConnection c (Some tlsConn)) ;;
              go (GoStartRead tlsConn) ;;
              ret None
          end
      end
  end.

(** The second half of [connectAndWrite], entered when the first [Write]
    returned the error [err]: the three [err] of the [if] statements are
    new variables of their own scope, and the final [return err] returns
    the variable that the first [Write] assigned. *)
Definition reconnectAndWrite (payload : bytes) (err : error) : M (option error) :=
  logLine (LogWriteErrorTryAgain err) ;;
  err1 <- openConnection ;;
  match err1 with
  | Some e => ret (Some e)
  | None =>
      c <- getClient ;;
      err2 <- ioSetWriteDeadline (apnsConnection c) ;;
      match err2 with
      | Some e => ret (Some e)
      | None =>
          err3 <- ioWrite (apnsConnection c) payload ;;
          match err3 with
          | Some e => ret (Some e)
          | None => ret (Some err)
          end
      end
  end.

Definition connectAndWrite (payload : bytes) : M (option error) :=
  c <- getClient ;;
  err0 <- (match apnsConnection c with
           | None => openConnection
           | Some _ => ret None
           end) ;;
  match err0 with
  | Some e => ret (Some e)
  | None =>
      c <- getClient ;;
      err1 <- ioSetWriteDeadline (apnsConnection c) ;;
      match err1 with
      | Some e => ret (Some e)
      | None =>
          err <- ioWrite (apnsConnection c) payload ;;
          match err with
          | Some e => reconnectAndWrite payload e
          | None => ret None
          end
      end
  end.

Definition Send (pn : pnPtr) : M (option error) :=
  c <- getClient ;;
  if negb (running c) then ret (Some "client is not running"%string)
  else
    p <- readPn pn ;;
    writePn pn (mkPn (counter c) (Payload p)) ;;
    modifyClient (fun c =>
      set_counter c (rem32 (add32 (counter c) 1) (IdentifierUbound E))) ;;
    p <- readPn pn ;;
    match ToBytes E p with
    | (_, Some e) => ret (Some e)
    | (payload, None) =>
        err <- connectAndWrite payload ;;
        match err with
        | None => modifyClient (fun c => set_sentQ c (Append (sentQ c) pn))
        | Some _ =>
            modifyClient (fun c => set_apnsConnection c None) ;;
            go (GoErrChannel (mkSendErr pn None))
        end ;;
        ret err
    end.

Definition Connect : M (option error) :=
  c <- getClient ;;
  if negb (running c) then ret (Some "client is not running"%string)
  else
    match apnsConnection c with
    | None => openConnection
    | Some _ => ret None
    end.

Definition connPtr_eqb (a b : connPtr) : bool :=
  match a, b with
  | None, None => true
  | Some x, Some y => Nat.eqb x y
  | _, _ => false
  end.

Definition tryReset (conn : connPtr) : M unit :=
  c <- getClient ;;
  if negb (running c) then ret tt
  else if connPtr_eqb (apnsConnection c) conn
       then modifyClient (fun c => set_apnsConnection c None)
       else ret tt.

Definition saveErr (errRsp : errResponse) : M unit :=
  c <- getClient ;;
  if negb (running c) then ret tt
  else chanSend errRsp.

Definition Close : M unit :=
  c <- getClient ;;
  if negb (running c) then ret tt
  else
    modifyClient (fun c => set_running c false) ;;
    chanClose ;;
    c <- getClient ;;
    match apnsConnection c with
    | None => ret tt
    | Some conn =>
        go (GoConnClose conn) ;;
        modifyClient (fun c => set_apnsConnection c None)
    end.

Definition handleErrResponse (res : errResponse) : M unit :=
  c <- getClient ;;
  if negb (running c) then ret tt
  else if Command res =? 0 then ret tt
  else
    fun m =>
      (let '(errPn, reSend) := Tail (sentQ c) (heap m) (RspIdentifier res) in
       logLine (LogHandleErrResponse (RspIdentifier res) errPn) ;;
       match errPn with
       | None => logLine (LogMaxSendQTooShort MAX_SEND_Q)
       | Some p =>
           go (GoErrChannel (mkSendErr p (Some res))) ;;
           modifyClient (fun c => set_sentQ c (Clear (sentQ c))) ;;
           if (0 <? List.length reSend)%nat then go (GoReSend reSend) else ret tt
       end) m.

(** One iteration of the goroutine that [handleErrResponse] starts on the
    drained tail: [if err := client.Send(pn); err != nil { log ... }]. *)
Definition reSendOne (pn : pnPtr) : M unit :=
  err <- Send pn ;;
  match err with
  | Some e => p <- readPn pn ;; logLine (LogReSendErr e (Identifier p))
  | None => ret tt
  end.

(** [for _, pn := range l { ... }] *)
Fixpoint reSendLoop (l : list pnPtr) : M unit :=
  match l with
  | [] => ret tt
  | pn :: rest => reSendOne pn ;; reSendLoop rest
  end.

(** ** The error-frame reader *)

Definition byteZ (b : byte) : Z := Z.of_N (Byte.to_N b).

(** [binary.Read(bytes.NewBuffer(b), binary.BigEndian, &id)] for an [int32]:
    four bytes, most significant first; [io.EOF] on an empty buffer and
    [io.ErrUnexpectedEOF] on a short one. *)
Definition binaryReadInt32 (b : bytes) : Z * option error :=
  match b with
  | b0 :: b1 :: b2 :: b3 :: _ =>
      (wrap32 (Z.lor (Z.shiftl (byteZ b0) 24)
                (Z.lor (Z.shiftl (byteZ b1) 16)
                   (Z.lor (Z.shiftl (byteZ b2) 8) (byteZ b3)))), None)
  | [] => (0, Some "EOF"%string)
  | _ => (0, Some "unexpected EOF"%string)
  end.

Definition startRead (conn : connId) : M unit :=
  r <- ioRead conn ;;
  let buffer := fst r in
  match snd r with
  | Some e =>
      logLine (LogReadErr e) ;;
      ioClose conn ;;
      go (GoTryReset conn)
  | None =>
      let command := byteZ (nth 0 buffer x00) in
      let status := byteZ (nth 1 buffer x00) in
      let rd := binaryReadInt32 (skipn 2 buffer) in
      let errRsp := mkErrResponse command status (fst rd) in
      match snd rd with
      | Some e => logLine (LogReadIdentifierErr e)
      | None =>
          if negb (Command errRsp =? ERR_RESPONSE_CMD E)
          then logLine (LogUnknownErrResponse buffer)
          else
            match ApplePushResponses E (Status errRsp) with
            | None => logLine (LogUnknownErrStatus buffer)
            | Some errMsg =>
                logLine (LogGetErrResponse errRsp errMsg) ;;
                go (GoSaveErr errRsp)
            end
      end
  end.

(** ** Construction *)

Definition create (gateway : string) : M unit :=
  putClient (mkClient gateway EmptyString EmptyString EmptyString EmptyString
               (mkCert None) None (makeChan 10) (newPnQueue MAX_SEND_Q) 0 true) ;;
  go GoConsumeErrChan.

Definition BareClient (gateway certificateBase64 keyBase64 : string) : M unit :=
  create gateway ;;
  modifyClient (fun c =>
    mkClient (Gateway c) (CertificateFile c) certificateBase64 (KeyFile c)
      keyBase64 (certificate c) (apnsConnection c) (errChan c) (sentQ c)
      (counter c) (running c)).

Definition NewClient (gateway certificateFile keyFile : string) : M unit :=
  create gateway ;;
  modifyClient (fun c =>
    mkClient (Gateway c) certificateFile (CertificateBase64 c) keyFile
      (KeyBase64 c) (certificate c) (apnsConnection c) (errChan c) (sentQ c)
      (counter c) (running c)).

(** ** Executions *)

(** The steps that the goroutines of a process take on one client: the
    calls of its user, the receive of the consumer of [errChan] and the
    call that follows it, the calls of the readers and of the resenders. *)
Inductive Op :=
| OpSend (pn : pnPtr)
| OpConnect
| OpClose
| OpTryReset (conn : connPtr)
| OpSaveErr (rsp : errResponse)
| OpHandleErrResponse (rsp : errResponse)
| OpRecv
| OpStartRead (conn : connId).

Definition step (o : Op) : M unit :=
  match o with
  | OpSend pn => Send pn ;; ret tt
  | OpConnect => Connect ;; ret tt
  | OpClose => Close
  | OpTryReset conn => tryReset conn
  | OpSaveErr rsp => saveErr rsp
  | OpHandleErrResponse rsp => handleErrResponse rsp
  | OpRecv => chanRecv ;; ret tt
  | OpStartRead conn => startRead conn
  end.

Fixpoint run (ops : list Op) : M unit :=
  match ops with
  | [] => ret tt
  | o :: rest => step o ;; run rest
  end.

End Model.

(** The machine before any client exists. *)
Definition boot (h : pnPtr -> PushNotification) : Machine :=
  mkMachine
    (mkClient EmptyString EmptyString EmptyString EmptyString EmptyString
       (mkCert None) None (mkChan [] 0 false) (mkQueue [] 0) 0 false)
    h (mkCalls 0 0 0 0 0) 0%nat [].

(** ** Observations on traces *)

(** The failures handed to [ErrChannel]. *)
Fixpoint sendErrs (t : list Event) : list SendErr :=
  match t with
  | [] => []
  | Go (GoErrChannel e) :: rest => e :: sendErrs rest
  | _ :: rest => sendErrs rest
  end.

(** The results of the socket writes. *)
Fixpoint writes (t : list Event) : list (option error) :=
  match t with
  | [] => []
  | IoWrite _ _ r :: rest => r :: writes rest
  | _ :: rest => writes rest
  end.

(** The notifications handed to a resending goroutine. *)
Fixpoint reSends (t : list Event) : list pnPtr :=
  match t with
  | [] => []
  | Go (GoReSend l) :: rest => l ++ reSends rest
  | _ :: rest => reSends rest
  end.

Definition isNetIo (e : Event) : bool :=
  match e with
  | Log _ | Go _ | ChanSend _ | ChanClose => false
  | _ => true
  end.

(** The calls to the network, the TLS library and the file system. *)
Fixpoint netIo (t : list Event) : list Event :=
  match t with
  | [] => []
  | e :: rest => if isNetIo e then e :: netIo rest else netIo rest
  end.

(** The connections closed by [conn.Close()]. *)
Fixpoint closes (t : list Event) : list connId :=
  match t with
  | [] => []
  | IoClose c :: rest => c :: closes rest
  | _ :: rest => closes rest
  end.

(** The connections read by [conn.Read]. *)
Fixpoint reads (t : list Event) : list connId :=
  match t with
  | [] => []
  | IoRead c _ _ :: rest => c :: reads rest
  | _ :: rest => reads rest
  end.

(** How often [errChan] was closed. *)
Fixpoint chanCloses (t : list Event) : nat :=
  match t with
  | [] => 0%nat
  | ChanClose :: rest => S (chanCloses rest)
  | _ :: rest => chanCloses rest
  end.

(** The events that a step from [m] to [m'] added to the trace. *)
Definition newEvents (m m' : Machine) : list Event :=
  skipn (List.length (trace m)) (trace m').

(** What [openConnection] and the writes leave alone in the client. *)
Definition sameCore (c c' : Client) : Prop :=
  running c' = running c /\ counter c' = counter c /\
  sentQ c' = sentQ c /\ errChan c' = errChan c.

(** The link between the flag [running], the state of [errChan] and the
    number of times [errChan] was closed. *)
Definition chanInv (m : Machine) : Prop :=
  closed (errChan (cl m)) = negb (running (cl m)) /\
  chanCloses (trace m) = (if running (cl m) then 0 else 1)%nat.

Definition notPanic {A} (r : Result A) : Prop :=
  match r with
  | Panic _ _ => False
  | _ => True
  end.

(** The ways in which [connectAndWrite] ends: the result [r], the results
    [ws] of its socket writes and the cached connection afterwards. *)
Inductive cwOutcome (r : option error) (ws : list (option error)) (conn' : connPtr) : Prop :=
| cwNoWrite e : r = Some e -> ws = [] -> cwOutcome r ws conn'
| cwFirstWrite cn : r = None -> ws = [None] -> conn' = Some cn -> cwOutcome r ws conn'
| cwNoRetry e0 e : r = Some e -> ws = [Some e0] -> cwOutcome r ws conn'
| cwBothFail e0 e1 : r = Some e1 -> ws = [Some e0; Some e1] -> cwOutcome r ws conn'
| cwRetryWritten e0 cn :
    r = Some e0 -> ws = [Some e0; None] -> conn' = Some cn -> cwOutcome r ws conn'.

(** The ways in which an accepted [Send] ends, [ser] being the error of
    [ToBytes]. *)
Inductive sendOutcome (pn : pnPtr) (c c' : Client) (ser r : option error)
  (evs : list Event) : Prop :=
| sendNotSerialized e :
    ser = Some e -> r = Some e -> evs = [] ->
    apnsConnection c' = apnsConnection c -> sentQ c' = sentQ c ->
    certificate c' = certificate c ->
    sendOutcome pn c c' ser r evs
| sendWritten cn :
    ser = None -> r = None -> writes evs = [None] -> sendErrs evs = [] ->
    apnsConnection c' = Some cn -> sentQ c' = Append (sentQ c) pn ->
    sendOutcome pn c c' ser r evs
| sendFailed e conn :
    ser = None -> r = Some e -> cwOutcome r (writes evs) conn ->
    sendErrs evs = [mkSendErr pn None] ->
    apnsConnection c' = None -> sentQ c' = sentQ c ->
    sendOutcome pn c c' ser r evs.

(** ** A test environment *)

Definition okCert : Certificate := mkCert (Some "key"%string).

(** The world in which loading, dialling, the handshake and the deadline
    succeed, and the writes fail as [w] says. *)
Definition testEnv (w : nat -> option error) (ser : option error) : Env :=
  mkEnv 9999 8
    (fun s => if s =? 8 then Some "invalid token"%string else None)
    (fun p => (Payload p, ser))
    (fun _ _ _ => (okCert, None))
    (fun _ _ _ => (okCert, None))
    (fun _ _ => None)
    (fun _ _ => None)
    (fun _ _ => None)
    (fun k _ _ => w k)
    (fun _ => ([x08; x08; x00; x00; x00; x01], None)).

(** Notifications that have not been sent yet. *)
Definition testHeap : pnPtr -> PushNotification :=
  fun p => mkPn (-1) [].

(** A running client made by [NewClient]. *)
Definition testMachine : Machine :=
  machineOf
    (NewClient "gateway.push.apple.com:2195" "cert.pem" "key.pem"
       (boot testHeap)).

(** ** Test data *)

Definition firstWriteFails (k : nat) : option error :=
  if Nat.eqb k 0 then Some "broken pipe"%string else None.

Definition allWritesFail (k : nat) : option error := Some "broken pipe"%string.

Definition noWriteFails (k : nat) : option error := None.

Definition envRetry : Env := testEnv firstWriteFails None.
Definition envDown : Env := testEnv allWritesFail None.
Definition envOk : Env := testEnv noWriteFails None.
Definition envBadPayload : Env :=
  testEnv noWriteFails (Some "payload too large"%string).

(** The machine after a [Send] whose first write fails and whose retry is
    written. *)
Definition retryM : Machine := machineOf (Send envRetry 0%nat testMachine).

(** The machine after a [Send] both of whose writes fail. *)
Definition downM : Machine := machineOf (Send envDown 0%nat testMachine).

(** Three notifications sent with sequence numbers 0, 1 and 2. *)
Definition sent3M : Machine :=
  machineOf (run envOk [OpSend 0%nat; OpSend 1%nat; OpSend 2%nat] testMachine).

(** The same on a client whose queue has capacity 2. *)
Definition smallQueueM : Machine :=
  machineOf
    (run envOk [OpSend 0%nat; OpSend 1%nat; OpSend 2%nat]
       (mkMachine (set_sentQ (cl testMachine) (newPnQueue 2)) testHeap
          (calls testMachine) (nextConn testMachine) (trace testMachine))).

(** The report of status 8 for the sequence number [id]. *)
Definition report (id : Z) : errResponse := mkErrResponse 8 8 id.

(** The machine after [Close]. *)
Definition closedM : Machine := machineOf (Close testMachine).

(** The machine after the reader of connection 0 received the frame of
    [envOk]. *)
Definition readM : Machine := machineOf (startRead envOk 0%nat sent3M).

(** ** Further observations on traces *)

(** The connections for which [go startRead(client, tlsConn)] was run. *)
Fixpoint readersStarted (t : list Event) : list connId :=
  match t with
  | [] => []
  | Go (GoStartRead c) :: rest => c :: readersStarted rest
  | _ :: rest => readersStarted rest
  end.

(** The reports for which [go client.saveErr(errRsp)] was run. *)
Fixpoint savedErrs (t : list Event) : list errResponse :=
  match t with
  | [] => []
  | Go (GoSaveErr r) :: rest => r :: savedErrs rest
  | _ :: rest => savedErrs rest
  end.

(** The connections for which [go client.tryReset(conn)] was run. *)
Fixpoint resetRequests (t : list Event) : list connId :=
  match t with
  | [] => []
  | Go (GoTryReset c) :: rest => c :: resetRequests rest
  | _ :: rest => resetRequests rest
  end.

(** The connections for which [go conn.Close()] was run. *)
Fixpoint connCloseTasks (t : list Event) : list connId :=
  match t with
  | [] => []
  | Go (GoConnClose c) :: rest => c :: connCloseTasks rest
  | _ :: rest => connCloseTasks rest
  end.

(** The results of the calls to [net.DialTimeout]. *)
Fixpoint dials (t : list Event) : list (option error) :=
  match t with
  | [] => []
  | IoDialTimeout _ r :: rest => r :: dials rest
  | _ :: rest => dials rest
  end.

(** The calls that load the key pair. *)
Fixpoint certLoads (t : list Event) : list Event :=
  match t with
  | [] => []
  | IoLoadX509KeyPair a b r :: rest => IoLoadX509KeyPair a b r :: certLoads rest
  | IoX509KeyPair a b r :: rest => IoX509KeyPair a b r :: certLoads rest
  | _ :: rest => certLoads rest
  end.

(** The value of four bytes read most significant first, as an unsigned
    number. *)
Definition be32 (b0 b1 b2 b3 : byte) : Z :=
  byteZ b0 * 2^24 + byteZ b1 * 2^16 + byteZ b2 * 2^8 + byteZ b3.

(** A step from [m] to [m'] with the events [evs] that dials at most [k]
    times, starts at most [k] readers and allocates at most [k] connection
    objects. *)
Definition ioBound (k : nat) (m m' : Machine) (evs : list Event) : Prop :=
  trace m' = trace m ++ evs /\
  (List.length (dials evs) <= k)%nat /\
  (List.length (readersStarted evs) <= k)%nat /\
  (nextConn m <= nextConn m' <= k + nextConn m)%nat.

(** The server names given to the TLS handshakes. *)
Fixpoint handshakeNames (t : list Event) : list string :=
  match t with
  | [] => []
  | IoHandshake _ name _ :: rest => name :: handshakeNames rest
  | _ :: rest => handshakeNames rest
  end.

(** The addresses dialled. *)
Fixpoint dialTargets (t : list Event) : list string :=
  match t with
  | [] => []
  | IoDialTimeout g _ :: rest => g :: dialTargets rest
  | _ :: rest => dialTargets rest
  end.

(** Whether a colon occurs in a string. *)
Fixpoint hasColon (s : string) : bool :=
  match s with
  | EmptyString => false
  | String c rest => Ascii.eqb c ":"%char || hasColon rest
  end.

(** The world of [testEnv] in which setting the write deadline fails. *)
Definition envNoDeadline : Env :=
  mkEnv 9999 8
    (fun s => if s =? 8 then Some "invalid token"%string else None)
    (fun p => (Payload p, None))
    (fun _ _ _ => (okCert, None))
    (fun _ _ _ => (okCert, None))
    (fun _ _ => None)
    (fun _ _ => None)
    (fun _ _ => Some "i/o timeout"%string)
    (fun _ _ _ => None)
    (fun _ => ([x08; x08; x00; x00; x00; x01], None)).

(** Ten reports, for the sequence numbers 0 to 9. *)
Definition tenReports : list errResponse :=
  map (fun i => report (Z.of_nat i)) (seq 0 10).

(** ** The resending goroutine among the other goroutines *)

(** The machine with another trace. *)
Definition setTrace (t : list Event) (m : Machine) : Machine :=
  mkMachine (cl m) (heap m) (calls m) (nextConn m) t.

(** The result with [t] put before the trace of its machine. *)
Definition prepend {A} (t : list Event) (r : Result A) : Result A :=
  match r with
  | Ok a m => Ok a (setTrace (t ++ trace m) m)
  | Panic msg m => Panic msg (setTrace (t ++ trace m) m)
  | Block m => Block (setTrace (t ++ trace m) m)
  end.

(** A computation that adds to the trace and never looks at it. *)
Definition oblivious {A} (x : M A) : Prop :=
  forall t m, x (setTrace t m) = prepend t (x (setTrace [] m)).

(** The trace without the lines that the resending goroutine logs. *)
Fixpoint withoutReSendLogs (t : list Event) : list Event :=
  match t with
  | [] => []
  | Log (LogReSendErr _ _) :: rest => withoutReSendLogs rest
  | e :: rest => e :: withoutReSendLogs rest
  end.

(** Two machines that differ at most in the lines that the resending
    goroutine logged. *)
Definition sameButReSendLogs (m1 m2 : Machine) : Prop :=
  cl m1 = cl m2 /\ heap m1 = heap m2 /\ calls m1 = calls m2 /\
  nextConn m1 = nextConn m2 /\
  withoutReSendLogs (trace m1) = withoutReSendLogs (trace m2).

Definition resultsAgree {A} (r1 r2 : Result A) : Prop :=
  match r1, r2 with
  | Ok a1 m1, Ok a2 m2 => a1 = a2 /\ sameButReSendLogs m1 m2
  | Panic msg1 m1, Panic msg2 m2 => msg1 = msg2 /\ sameButReSendLogs m1 m2
  | Block m1, Block m2 => sameButReSendLogs m1 m2
  | _, _ => False
  end.

(** The loop of the resending goroutine, [for _, pn := range l], as it
    runs in the process: every iteration takes the lock for its [Send],
    and before the i-th iteration the other goroutines take the steps
    [others_i] (none when the list [others] is exhausted). *)
Fixpoint reSendAmong (E : Env) (l : list pnPtr) (others : list (list Op))
  : M unit :=
  match l with
  | [] => ret tt
  | pn :: rest =>
      run E (hd [] others) ;;
      reSendOne E pn ;;
      reSendAmong E rest (tl others)
  end.

(** The same steps with a call of [Send] by a user of the client in the
    place of every iteration. *)
Fixpoint weave (l : list pnPtr) (others : list (list Op)) : list Op :=
  match l with
  | [] => []
  | pn :: rest => hd [] others ++ OpSend pn :: weave rest (tl others)
  end.

(** * Proofs *)

Arguments getCertificate : simpl never.
Arguments openConnection : simpl never.
Arguments reconnectAndWrite : simpl never.
Arguments connectAndWrite : simpl never.
Arguments Send : simpl never.

Ltac unfold_prims :=
  cbv beta iota delta
    [bind ret panic getClient putClient modifyClient emit logLine go readPn
     writePn getCalls putCalls newConn ioLoadX509KeyPair ioX509KeyPair
     ioDialTimeout ioHandshake ioSetWriteDeadline ioWrite ioRead ioClose].

Lemma wrap32_small z : - 2^31 <= z < 2^31 -> wrap32 z = z.
Proof.
  intros H. unfold wrap32. rewrite Z.mod_small; lia.
Qed.

Lemma next_counter U c :
  0 < U <= 2^31 - 1 -> 0 <= c < U ->
  rem32 (add32 c 1) U = (c + 1) mod U /\ 0 <= rem32 (add32 c 1) U < U.
Proof.
  intros HU Hc. unfold rem32, add32.
  rewrite (wrap32_small (c + 1)) by lia.
  rewrite Z.rem_mod_nonneg by lia.
  pose proof (Z.mod_pos_bound (c + 1) U ltac:(lia)) as Hb.
  rewrite wrap32_small by lia. split; [reflexivity | lia].
Qed.

Lemma newEvents_app m m' evs :
  trace m' = trace m ++ evs -> newEvents m m' = evs.
Proof.
  intros H. unfold newEvents. rewrite H.
  rewrite skipn_app, skipn_all, Nat.sub_diag. reflexivity.
Qed.

Lemma writes_app t1 t2 : writes (t1 ++ t2) = writes t1 ++ writes t2.
Proof.
  induction t1 as [|e t1 IH]; simpl; [reflexivity|].
  destruct e; simpl; rewrite ?IH; reflexivity.
Qed.

Lemma sendErrs_app t1 t2 : sendErrs (t1 ++ t2) = sendErrs t1 ++ sendErrs t2.
Proof.
  induction t1 as [|e t1 IH]; simpl; [reflexivity|].
  destruct e as [| t | | | | | | | | | |]; simpl; rewrite ?IH; try reflexivity.
  destruct t; simpl; rewrite ?IH; reflexivity.
Qed.

Lemma chanCloses_app t1 t2 :
  chanCloses (t1 ++ t2) = (chanCloses t1 + chanCloses t2)%nat.
Proof.
  induction t1 as [|e t1 IH]; simpl; [reflexivity|].
  destruct e; simpl; rewrite ?IH; reflexivity.
Qed.

Ltac close_trace Ht :=
  cbn; rewrite ?Ht; cbn; rewrite <- ?app_assoc; cbn; try reflexivity.

Ltac observe :=
  cbn; rewrite ?writes_app, ?sendErrs_app, ?chanCloses_app; cbn.

Lemma sameCore_refl c : sameCore c c.
Proof. repeat split. Qed.

Lemma sameCore_trans c1 c2 c3 : sameCore c1 c2 -> sameCore c2 c3 -> sameCore c1 c3.
Proof.
  unfold sameCore. intros (A1 & A2 & A3 & A4) (B1 & B2 & B3 & B4).
  repeat split; congruence.
Qed.

Section Proofs.

Variable E : Env.

Lemma getCertificate_spec m :
  exists r m' evs,
    getCertificate E m = Ok r m' /\ heap m' = heap m /\
    sameCore (cl m) (cl m') /\
    apnsConnection (cl m') = apnsConnection (cl m) /\
    trace m' = trace m ++ evs /\
    writes evs = [] /\ sendErrs evs = [] /\ chanCloses evs = 0%nat.
Proof.
  unfold getCertificate. unfold_prims. cbn.
  destruct (PrivateKey (certificate (cl m))).
  - exists None, m, []. rewrite app_nil_r.
    repeat split; reflexivity.
  - destruct ((String.length (CertificateBase64 (cl m)) =? 0)%nat
              && (String.length (KeyBase64 (cl m)) =? 0)%nat);
      do 3 eexists; cbn; repeat split; reflexivity.
Qed.

Lemma openConnection_spec m :
  exists r m' evs,
    openConnection E m = Ok r m' /\ heap m' = heap m /\
    sameCore (cl m) (cl m') /\
    trace m' = trace m ++ evs /\
    writes evs = [] /\ sendErrs evs = [] /\ chanCloses evs = 0%nat /\
    match r with
    | None => exists cn, apnsConnection (cl m') = Some cn
    | Some _ => apnsConnection (cl m') = apnsConnection (cl m)
    end.
Proof.
  unfold openConnection.
  unfold bind at 1. unfold logLine at 1, emit at 1.
  unfold bind at 1.
  match goal with |- context [getCertificate E ?m0] =>
    destruct (getCertificate_spec m0)
      as (r & m1 & evs & -> & Hh & Hc & Ha & Ht & Hw & Hs & Hx)
  end.
  cbn in Hh, Hc, Ha, Ht.
  destruct r as [e|]; unfold_prims; cbn;
    [| destruct (DialTimeout E (nDial (calls m1)) (Gateway (cl m1))) as [e|]; cbn;
       [| destruct (Handshake E (nHandshake (calls m1)) (nextConn m1)) as [e|]; cbn ] ].
  all: do 3 eexists; split; [reflexivity|]; cbn.
  all: split; [assumption|]; split; [assumption|].
  all: split; [close_trace Ht|].
  all: observe; rewrite Hw, Hs, Hx; repeat split; try assumption.
  eexists; reflexivity.
Qed.


Lemma reconnectAndWrite_spec payload e0 m :
  exists r m' evs,
    reconnectAndWrite E payload e0 m = Ok r m' /\ heap m' = heap m /\
    sameCore (cl m) (cl m') /\
    trace m' = trace m ++ evs /\
    sendErrs evs = [] /\ chanCloses evs = 0%nat /\
    cwOutcome r (Some e0 :: writes evs) (apnsConnection (cl m')).
Proof.
  unfold reconnectAndWrite.
  unfold bind at 1. unfold logLine at 1, emit at 1.
  unfold bind at 1.
  match goal with |- context [openConnection E ?m0] =>
    destruct (openConnection_spec m0)
      as (r & m1 & evs & -> & Hh & Hc & Ht & Hw & Hs & Hx & Hr)
  end.
  cbn in Hh, Hc, Ht.
  destruct r as [e|]; [| destruct Hr as (cn & Hcn)]; unfold_prims; cbn;
    [| rewrite Hcn; cbn;
       destruct (SetWriteDeadline E (nDeadline (calls m1)) cn) as [e|]; cbn;
       [| destruct (Write E (nWrite (calls m1)) cn payload) as [e|]; cbn ] ].
  all: do 3 eexists; split; [reflexivity|]; cbn.
  all: split; [assumption|]; split; [assumption|].
  all: split; [close_trace Ht|].
  all: observe; rewrite Hw, Hs, Hx; repeat split.
  - eapply cwNoRetry; reflexivity.
  - eapply cwNoRetry; reflexivity.
  - eapply cwBothFail; reflexivity.
  - eapply cwRetryWritten; [reflexivity | reflexivity | eassumption].
Qed.


Lemma connectAndWrite_spec payload m :
  exists r m' evs,
    connectAndWrite E payload m = Ok r m' /\ heap m' = heap m /\
    sameCore (cl m) (cl m') /\
    trace m' = trace m ++ evs /\
    sendErrs evs = [] /\ chanCloses evs = 0%nat /\
    cwOutcome r (writes evs) (apnsConnection (cl m')).
Proof.
  assert (Hwrite : forall m1 evs cn,
    heap m1 = heap m -> sameCore (cl m) (cl m1) ->
    trace m1 = trace m ++ evs ->
    writes evs = [] -> sendErrs evs = [] -> chanCloses evs = 0%nat ->
    apnsConnection (cl m1) = Some cn ->
    exists r m' evs',
      (c <- getClient ;;
       err1 <- ioSetWriteDeadline E (apnsConnection c) ;;
       match err1 with
       | Some e => ret (Some e)
       | None =>
           err <- ioWrite E (apnsConnection c) payload ;;
           match err with
           | Some e => reconnectAndWrite E payload e
           | None => ret None
           end
       end) m1 = Ok r m' /\ heap m' = heap m /\
      sameCore (cl m) (cl m') /\
      trace m' = trace m ++ evs' /\
      sendErrs evs' = [] /\ chanCloses evs' = 0%nat /\
      cwOutcome r (writes evs') (apnsConnection (cl m'))).
  { intros m1 evs cn Hh Hc Ht Hw Hs Hx Hcn.
    unfold_prims. cbn. rewrite Hcn. cbn.
    destruct (SetWriteDeadline E (nDeadline (calls m1)) cn) as [e|]; cbn.
    { do 3 eexists; split; [reflexivity|]; cbn.
      split; [assumption|]; split; [assumption|].
      split; [close_trace Ht|].
      observe; rewrite Hw, Hs, Hx; repeat split.
      eapply cwNoWrite; reflexivity. }
    destruct (Write E (nWrite (calls m1)) cn payload) as [e|]; cbn.
    - match goal with |- context [reconnectAndWrite E payload e ?m0] =>
        destruct (reconnectAndWrite_spec payload e m0)
          as (r & m2 & evs2 & -> & Hh2 & Hc2 & Ht2 & Hs2 & Hx2 & Hr2)
      end.
      cbn in Hh2, Hc2, Ht2.
      do 3 eexists; split; [reflexivity|].
      split; [congruence|].
      split; [eapply sameCore_trans; eassumption|].
      split; [close_trace Ht2; close_trace Ht|].
      observe; rewrite Hw, Hs, Hx, Hs2, Hx2; repeat split. exact Hr2.
    - do 3 eexists; split; [reflexivity|]; cbn.
      split; [assumption|]; split; [assumption|].
      split; [close_trace Ht|].
      observe; rewrite Hw, Hs, Hx; repeat split.
      eapply cwFirstWrite; [reflexivity | reflexivity | eassumption]. }
  unfold connectAndWrite.
  unfold bind at 1. unfold getClient at 1.
  destruct (apnsConnection (cl m)) as [cn|] eqn:Hconn.
  - unfold bind at 1. unfold ret at 1.
    apply (Hwrite m [] cn); try reflexivity; try apply sameCore_refl.
    + rewrite app_nil_r; reflexivity.
    + assumption.
  - unfold bind at 1.
    destruct (openConnection_spec m)
      as (r & m1 & evs & -> & Hh & Hc & Ht & Hw & Hs & Hx & Hr).
    destruct r as [e|].
    + unfold ret. do 3 eexists; split; [reflexivity|].
      split; [assumption|]; split; [assumption|].
      split; [eassumption|].
      rewrite Hw, Hs, Hx; repeat split.
      eapply cwNoWrite; reflexivity.
    + destruct Hr as (cn & Hcn).
      apply (Hwrite m1 evs cn); assumption.
Qed.

Lemma Send_spec pn m :
  running (cl m) = true ->
  exists r m' evs,
    Send E pn m = Ok r m' /\
    heap m' = (fun q => if Nat.eqb q pn
                        then mkPn (counter (cl m)) (Payload (heap m pn))
                        else heap m q) /\
    running (cl m') = true /\
    errChan (cl m') = errChan (cl m) /\
    counter (cl m') = rem32 (add32 (counter (cl m)) 1) (IdentifierUbound E) /\
    trace m' = trace m ++ evs /\
    chanCloses evs = 0%nat /\
    sendOutcome pn (cl m) (cl m')
      (snd (ToBytes E (mkPn (counter (cl m)) (Payload (heap m pn))))) r evs.
Proof.
  intros Hrun. unfold Send.
  unfold bind at 1. unfold getClient at 1. rewrite Hrun. cbn [negb].
  unfold_prims. cbn. rewrite Nat.eqb_refl.
  destruct (ToBytes E (mkPn (counter (cl m)) (Payload (heap m pn))))
    as [payload [e|]] eqn:Hser; cbn.
  - exists (Some e), (mkMachine
        (set_counter (cl m) (rem32 (add32 (counter (cl m)) 1) (IdentifierUbound E)))
        (fun q => if Nat.eqb q pn
                  then mkPn (counter (cl m)) (Payload (heap m pn))
                  else heap m q)
        (calls m) (nextConn m) (trace m)), [].
    cbn. rewrite app_nil_r. repeat split; try assumption.
    eapply sendNotSerialized; reflexivity.
  - match goal with |- context [connectAndWrite E payload ?m0] =>
      destruct (connectAndWrite_spec payload m0)
        as (r & m1 & evs & -> & Hh & (Hc1 & Hc2 & Hc3 & Hc4) & Ht & Hs & Hx & Hr)
    end.
    cbn in Hh, Hc1, Hc2, Hc3, Hc4, Ht.
    destruct r as [e|]; cbn.
    + do 3 eexists; split; [reflexivity|]; cbn.
      split; [assumption|]. split; [congruence|]. split; [assumption|].
      split; [assumption|]. split; [close_trace Ht|].
      observe. rewrite Hx. split; [reflexivity|].
      eapply sendFailed; try reflexivity.
      * rewrite writes_app; cbn; rewrite app_nil_r. exact Hr.
      * rewrite sendErrs_app, Hs; reflexivity.
      * cbn. assumption.
    + inversion Hr as [e He|cn He Hw Hcn|e0 e He|e0 e1 He|e0 cn He];
        try discriminate.
      do 3 eexists; split; [reflexivity|]; cbn.
      split; [assumption|]. split; [congruence|]. split; [assumption|].
      split; [assumption|]. split; [eassumption|].
      split; [assumption|].
      eapply sendWritten; try reflexivity; try eassumption.
      cbn. congruence.
Qed.


Lemma Send_not_running pn m :
  running (cl m) = false ->
  Send E pn m = Ok (Some "client is not running"%string) m.
Proof.
  intros Hrun. unfold Send, bind, getClient. rewrite Hrun. reflexivity.
Qed.

(** C1. [Send] on a running client whose first socket write fails and whose
    retried write succeeds: the code returns the error of the first write,
    leaves the Replay Queue as it was, discards the cached connection and
    reports the notification as failed.  (The claim expects no error and an
    appended notification.) *)
Theorem Send_retry_written_returns_first_error pn m r m' e :
  running (cl m) = true ->
  Send E pn m = Ok r m' ->
  writes (newEvents m m') = [Some e; None] ->
  r = Some e /\
  sentQ (cl m') = sentQ (cl m) /\
  apnsConnection (cl m') = None /\
  sendErrs (newEvents m m') = [mkSendErr pn None].
Proof.
  intros Hrun HS Hw.
  destruct (Send_spec pn m Hrun)
    as (r0 & m0 & evs & HS0 & _ & _ & _ & _ & Ht & _ & Hout).
  rewrite HS in HS0. injection HS0 as <- <-.
  rewrite (newEvents_app _ _ _ Ht) in *.
  destruct Hout as [e0 _ _ -> _ _ _ | cn _ _ Hw' _ _ _ | e0 conn _ Hr Hcw Hse Hconn Hq].
  - discriminate.
  - rewrite Hw in Hw'. discriminate.
  - rewrite Hw in Hcw.
    inversion Hcw as [e1 _ Hx | cn _ Hx _ | e1 e2 _ Hx | e1 e2 He Hx | e1 cn He Hx _];
      try discriminate.
    injection Hx as ->. auto.
Qed.

(** C2. [Send] on a running client writes to the socket at most twice, a
    second write only after a failed first one; when both writes fail it
    returns the error of the second write, discards the cached connection
    and hands exactly one [SendErr] with a nil [Res] to [ErrChannel]. *)
Theorem Send_writes_at_most_twice pn m :
  running (cl m) = true ->
  exists r m',
    Send E pn m = Ok r m' /\
    (List.length (writes (newEvents m m')) <= 2)%nat /\
    (forall w1 w2, writes (newEvents m m') = [w1; w2] -> w1 <> None) /\
    (forall e1 e2,
       writes (newEvents m m') = [Some e1; Some e2] ->
       r = Some e2 /\
       apnsConnection (cl m') = None /\
       sendErrs (newEvents m m') = [mkSendErr pn None]).
Proof.
  intros Hrun.
  destruct (Send_spec pn m Hrun)
    as (r & m' & evs & HS & _ & _ & _ & _ & Ht & _ & Hout).
  exists r, m'. split; [assumption|].
  rewrite (newEvents_app _ _ _ Ht).
  destruct Hout as [e0 _ _ -> _ _ _ | cn _ _ Hw' _ _ _ | e0 conn _ Hr Hcw Hse Hconn Hq].
  - cbn. repeat split; try lia; intros; discriminate.
  - rewrite Hw'. cbn. repeat split; try lia; intros; discriminate.
  - inversion Hcw as [e1 _ Hx | cn _ Hx _ | e1 e2 _ Hx | e1 e2 He Hx | e1 cn He Hx _];
      rewrite Hx; cbn; repeat split; try lia; try (intros; discriminate);
      try assumption.
    + intros w1 w2 H. injection H as <- _. discriminate.
    + match goal with H : [_; _] = [_; _] |- _ => injection H as _ <- end.
      assumption.
    + intros w1 w2 H. injection H as <- _. discriminate.
Qed.

(** C9. An accepted [Send] stores the current counter in the notification's
    [Identifier] and advances the counter by one modulo [IdentifierUbound]
    (to 0 instead of the bound), whatever serialization and the writes do. *)
Theorem Send_advances_counter pn m :
  0 < IdentifierUbound E <= 2^31 - 1 ->
  0 <= counter (cl m) < IdentifierUbound E ->
  running (cl m) = true ->
  exists r m',
    Send E pn m = Ok r m' /\
    Identifier (heap m' pn) = counter (cl m) /\
    counter (cl m') = (counter (cl m) + 1) mod IdentifierUbound E /\
    (counter (cl m) + 1 = IdentifierUbound E -> counter (cl m') = 0) /\
    (counter (cl m) + 1 < IdentifierUbound E ->
     counter (cl m') = counter (cl m) + 1) /\
    0 <= counter (cl m') < IdentifierUbound E.
Proof.
  intros HU Hc Hrun.
  destruct (Send_spec pn m Hrun)
    as (r & m' & evs & HS & Hh & _ & _ & Hcnt & _ & _ & _).
  destruct (next_counter _ _ HU Hc) as (Hn & Hb).
  exists r, m'. split; [assumption|].
  split; [rewrite Hh, Nat.eqb_refl; reflexivity|].
  rewrite Hcnt, Hn. repeat split.
  - intros ->. apply Z.mod_same. lia.
  - intros Hlt. apply Z.mod_small. lia.
  - rewrite <- Hn. apply Hb.
  - rewrite <- Hn. apply Hb.
Qed.

(** C10. An accepted [Send] whose serialization fails returns that error,
    makes no call to the network, leaves the cached connection and the
    Replay Queue as they were and hands nothing to [ErrChannel]; the counter
    has advanced and the notification's [Identifier] is overwritten. *)
Theorem Send_serialization_error pn m e :
  running (cl m) = true ->
  snd (ToBytes E (mkPn (counter (cl m)) (Payload (heap m pn)))) = Some e ->
  exists m',
    Send E pn m = Ok (Some e) m' /\
    trace m' = trace m /\
    netIo (newEvents m m') = [] /\
    sendErrs (newEvents m m') = [] /\
    calls m' = calls m /\
    apnsConnection (cl m') = apnsConnection (cl m) /\
    sentQ (cl m') = sentQ (cl m) /\
    counter (cl m') = rem32 (add32 (counter (cl m)) 1) (IdentifierUbound E) /\
    Identifier (heap m' pn) = counter (cl m).
Proof.
  intros Hrun Hser. unfold Send.
  unfold bind at 1. unfold getClient at 1. rewrite Hrun. cbn [negb].
  unfold_prims. cbn. rewrite Nat.eqb_refl.
  destruct (ToBytes E (mkPn (counter (cl m)) (Payload (heap m pn))))
    as [payload ser]. cbn in Hser. subst ser.
  eexists. split; [reflexivity|]. cbn.
  unfold newEvents. cbn. rewrite skipn_all, Nat.eqb_refl.
  repeat split.
Qed.


(** ** The replay queue lookup *)

Lemma tailFrom_none h id l :
  (forall p, In p l -> Identifier (h p) <> id) ->
  tailFrom h id l = (None, []).
Proof.
  induction l as [|p l IH]; intros Hno; cbn; [reflexivity|].
  destruct (Z.eqb_spec (Identifier (h p)) id) as [Heq|Hne].
  - exfalso. apply (Hno p); [left; reflexivity | assumption].
  - apply IH. intros q Hq. apply Hno. right. assumption.
Qed.

Lemma tailFrom_some h id l p :
  In p l -> Identifier (h p) = id ->
  exists before errPn reSend,
    l = before ++ errPn :: reSend /\
    Identifier (h errPn) = id /\
    (forall q, In q before -> Identifier (h q) <> id) /\
    tailFrom h id l = (Some errPn, reSend).
Proof.
  induction l as [|a l IH]; intros Hin Hid; [destruct Hin|].
  cbn. destruct (Z.eqb_spec (Identifier (h a)) id) as [Heq|Hne].
  - exists [], a, l. repeat split; [assumption | intros q []].
  - destruct Hin as [->|Hin]; [contradiction|].
    destruct (IH Hin Hid) as (before & errPn & reSend & -> & He & Hb & Ht).
    exists (a :: before), errPn, reSend. repeat split; try assumption.
    intros q [<-|Hq]; [assumption | apply Hb; assumption].
Qed.

(** ** The resending goroutine *)

Lemma Send_total pn m : exists r m', Send E pn m = Ok r m'.
Proof.
  destruct (running (cl m)) eqn:Hrun.
  - destruct (Send_spec pn m Hrun) as (r & m' & _ & HS & _). eauto.
  - rewrite (Send_not_running pn m Hrun). eauto.
Qed.

Lemma reSendOne_spec pn m :
  exists r m1,
    Send E pn m = Ok r m1 /\
    reSendOne E pn m =
      Ok tt (match r with
             | Some e =>
                 mkMachine (cl m1) (heap m1) (calls m1) (nextConn m1)
                   (trace m1 ++ [Log (LogReSendErr e (Identifier (heap m1 pn)))])
             | None => m1
             end).
Proof.
  destruct (Send_total pn m) as (r & m1 & HS).
  exists r, m1. split; [assumption|].
  unfold reSendOne, bind. rewrite HS. destruct r; reflexivity.
Qed.

Lemma reSendLoop_total l : forall m, exists m', reSendLoop E l m = Ok tt m'.
Proof.
  induction l as [|pn l IH]; intros m; cbn.
  - eexists; reflexivity.
  - unfold bind at 1.
    destruct (reSendOne_spec pn m) as (r & m1 & _ & ->). apply IH.
Qed.

Lemma reSendLoop_not_running l : forall m,
  running (cl m) = false ->
  exists m',
    reSendLoop E l m = Ok tt m' /\
    cl m' = cl m /\ heap m' = heap m /\
    trace m' = trace m ++
      map (fun q => Log (LogReSendErr "client is not running"%string
                           (Identifier (heap m q)))) l.
Proof.
  induction l as [|pn l IH]; intros m Hrun.
  - exists m. cbn. rewrite app_nil_r. repeat split.
  - cbn [reSendLoop]. unfold bind at 1. unfold reSendOne, bind.
    rewrite (Send_not_running pn m Hrun). unfold_prims. cbn.
    match goal with |- context [reSendLoop E l ?m0] =>
      destruct (IH m0 Hrun) as (m' & HL & Hc & Hh & Ht)
    end.
    cbn in Hc, Hh, Ht.
    exists m'. repeat split; try assumption.
    rewrite Ht, <- app_assoc. reflexivity.
Qed.


(** C4. A report with a non-zero command whose sequence number is that of
    no entry of the Replay Queue, on a running client: the lookup finds
    nothing, and [handleErrResponse] logs the capacity warning and nothing
    else happens: client and notifications are unchanged, nothing is handed
    to [ErrChannel] and no resending goroutine is started. *)
Theorem handleErrResponse_no_match res m :
  running (cl m) = true ->
  Command res <> 0 ->
  (forall p, In p (items (sentQ (cl m))) ->
             Identifier (heap m p) <> RspIdentifier res) ->
  exists m',
    Tail (sentQ (cl m)) (heap m) (RspIdentifier res) = (None, []) /\
    handleErrResponse res m = Ok tt m' /\
    cl m' = cl m /\ heap m' = heap m /\
    newEvents m m' =
      [Log (LogHandleErrResponse (RspIdentifier res) None);
       Log (LogMaxSendQTooShort MAX_SEND_Q)] /\
    sendErrs (newEvents m m') = [] /\
    reSends (newEvents m m') = [] /\
    netIo (newEvents m m') = [].
Proof.
  intros Hrun Hcmd Hno.
  pose proof (tailFrom_none (heap m) (RspIdentifier res) _ Hno) as Ht.
  unfold handleErrResponse.
  unfold bind at 1. unfold getClient at 1. rewrite Hrun. cbn [negb].
  apply Z.eqb_neq in Hcmd. rewrite Hcmd.
  unfold Tail. rewrite Ht. unfold_prims. cbn.
  eexists. split; [reflexivity|]. split; [reflexivity|]. cbn [cl heap trace].
  erewrite newEvents_app by (cbn [trace]; rewrite <- ?app_assoc; reflexivity).
  repeat split.
Qed.

(** C6. [tryReset(conn)] on a running client sets [apnsConnection] to nil
    exactly when it is the given [conn]; a different cached connection is
    left as it is, and nothing else changes. *)
Theorem tryReset_clears_same_conn_only conn m :
  running (cl m) = true ->
  exists m',
    tryReset conn m = Ok tt m' /\
    heap m' = heap m /\ trace m' = trace m /\ calls m' = calls m /\
    (apnsConnection (cl m) = conn ->
     cl m' = set_apnsConnection (cl m) None) /\
    (apnsConnection (cl m) <> conn -> m' = m).
Proof.
  intros Hrun. unfold tryReset, bind, getClient. rewrite Hrun. cbn [negb].
  assert (Heqb : connPtr_eqb (apnsConnection (cl m)) conn = true
                 <-> apnsConnection (cl m) = conn).
  { destruct (apnsConnection (cl m)) as [a|], conn as [b|]; cbn;
      try (split; [discriminate | discriminate]); try tauto.
    rewrite Nat.eqb_eq. split; [intros ->; reflexivity | intros H; injection H; auto]. }
  destruct (connPtr_eqb (apnsConnection (cl m)) conn) eqn:Hc.
  - eexists. split; [reflexivity|]. cbn. repeat split.
    intros Hne. exfalso. apply Hne. apply Heqb. reflexivity.
  - exists m. unfold ret. repeat split.
    intros Heq. apply Heqb in Heq. discriminate.
Qed.

(** ** The reader *)

Lemma startRead_spec conn m :
  exists m' evs,
    startRead E conn m = Ok tt m' /\
    cl m' = cl m /\ heap m' = heap m /\ calls m' = calls m /\
    trace m' = trace m ++ evs /\
    chanCloses evs = 0%nat /\
    reads evs = [conn] /\
    closes evs = (match snd (Read E conn) with Some _ => [conn] | None => [] end).
Proof.
  unfold startRead. unfold_prims. cbn.
  destruct (snd (Read E conn)) as [e|]; cbn.
  - do 2 eexists. split; [reflexivity|]. cbn.
    rewrite <- !app_assoc. cbn. repeat split.
  - match goal with |- context [binaryReadInt32 ?b] =>
      destruct (binaryReadInt32 b) as [id [e|]]; cbn
    end.
    + do 2 eexists. split; [reflexivity|]. cbn.
      rewrite <- !app_assoc. cbn. repeat split.
    + match goal with |- context [negb ?b] => destruct b; cbn end.
      * match goal with |- context [ApplePushResponses E ?s] =>
          destruct (ApplePushResponses E s); cbn
        end.
        -- do 2 eexists. split; [reflexivity|]. cbn.
           rewrite <- !app_assoc. cbn. repeat split.
        -- do 2 eexists. split; [reflexivity|]. cbn.
           rewrite <- !app_assoc. cbn. repeat split.
      * do 2 eexists. split; [reflexivity|]. cbn.
        rewrite <- !app_assoc. cbn. repeat split.
Qed.

Lemma startRead_resets conn m :
  exists m' evs,
    startRead E conn m = Ok tt m' /\
    cl m' = cl m /\
    trace m' = trace m ++ evs /\
    reads evs = [conn] /\
    closes evs =
      (match snd (Read E conn) with Some _ => [conn] | None => [] end) /\
    resetRequests evs =
      (match snd (Read E conn) with Some _ => [conn] | None => [] end) /\
    (snd (Read E conn) <> None -> savedErrs evs = []).
Proof.
  unfold startRead. unfold_prims. cbn.
  destruct (snd (Read E conn)) as [e|]; cbn.
  - do 2 eexists. split; [reflexivity|]. cbn.
    rewrite <- !app_assoc. cbn. repeat split.
  - match goal with |- context [binaryReadInt32 ?b] =>
      destruct (binaryReadInt32 b) as [id [e|]]; cbn
    end.
    + do 2 eexists. split; [reflexivity|]. cbn.
      rewrite <- !app_assoc. cbn.
      repeat split; try (intros H; exfalso; apply H; reflexivity).
    + match goal with |- context [negb ?b] => destruct b; cbn end.
      * match goal with |- context [ApplePushResponses E ?s] =>
          destruct (ApplePushResponses E s); cbn
        end.
        -- do 2 eexists. split; [reflexivity|]. cbn.
           rewrite <- !app_assoc. cbn.
      repeat split; try (intros H; exfalso; apply H; reflexivity).
        -- do 2 eexists. split; [reflexivity|]. cbn.
           rewrite <- !app_assoc. cbn.
      repeat split; try (intros H; exfalso; apply H; reflexivity).
      * do 2 eexists. split; [reflexivity|]. cbn.
        rewrite <- !app_assoc. cbn.
      repeat split; try (intros H; exfalso; apply H; reflexivity).
Qed.

(** C5. Every execution of [startRead] on a connection reads from it once
    and returns.  Only when that read fails does the code close the
    connection and ask for its invalidation ([go client.tryReset(conn)]).
    On the three other exits (frame with another command, status outside
    the table, frame reported) it returns with the connection neither
    closed nor invalidated: the connection stays cached in the client as it
    was, and no reader is left on it.  (The claim expects the connection
    closed on every exit.) *)
Theorem startRead_closes_on_read_error_only conn m :
  exists m',
    startRead E conn m = Ok tt m' /\
    cl m' = cl m /\
    reads (newEvents m m') = [conn] /\
    (snd (Read E conn) <> None ->
       closes (newEvents m m') = [conn] /\
       resetRequests (newEvents m m') = [conn] /\
       savedErrs (newEvents m m') = []) /\
    (snd (Read E conn) = None ->
       closes (newEvents m m') = [] /\
       resetRequests (newEvents m m') = [] /\
       readersStarted (newEvents m m') = [] /\
       apnsConnection (cl m') = apnsConnection (cl m)).
Proof.
  destruct (startRead_resets conn m)
    as (m' & evs & HS & Hc & Ht & Hr & Hcl & Hrs & Hsv).
  assert (Hnr : readersStarted evs = []).
  { revert HS Ht. unfold startRead. unfold_prims. cbn.
    destruct (snd (Read E conn)) as [e|]; cbn;
      [| match goal with |- context [binaryReadInt32 ?b] =>
           destruct (binaryReadInt32 b) as [id [e|]]; cbn
         end;
         [| match goal with |- context [negb ?b] => destruct b; cbn end;
            [ match goal with |- context [ApplePushResponses E ?s] =>
                destruct (ApplePushResponses E s); cbn
              end |]]].
    all: intros H1 H2; injection H1 as <-; cbn in H2;
      rewrite <- ?app_assoc in H2; apply app_inv_head in H2; subst evs;
      reflexivity. }
  exists m'. rewrite (newEvents_app _ _ _ Ht).
  split; [exact HS|]. split; [exact Hc|]. split; [exact Hr|]. split.
  - intros Hne. rewrite Hcl, Hrs.
    destruct (snd (Read E conn)); [|contradiction].
    split; [reflexivity|]. split; [reflexivity|]. apply Hsv. discriminate.
  - intros Heq. rewrite Hcl, Hrs, Heq, Hc. auto.
Qed.

(** ** Executions *)

Lemma step_not_running o m :
  running (cl m) = false ->
  running (cl (machineOf (step E o m))) = false.
Proof.
  intros Hrun. destruct o; cbn [step].
  - unfold bind. rewrite (Send_not_running _ _ Hrun). exact Hrun.
  - unfold Connect, bind, getClient. rewrite Hrun. exact Hrun.
  - unfold Close, bind, getClient. rewrite Hrun. exact Hrun.
  - unfold tryReset, bind, getClient. rewrite Hrun. exact Hrun.
  - unfold saveErr, bind, getClient. rewrite Hrun. exact Hrun.
  - unfold handleErrResponse, bind, getClient. rewrite Hrun. exact Hrun.
  - unfold bind, chanRecv.
    destruct (buf (errChan (cl m))); [destruct (closed (errChan (cl m)))|];
      cbn; exact Hrun.
  - destruct (startRead_spec conn m) as (m' & evs & -> & Hc & _).
    cbn. rewrite Hc. exact Hrun.
Qed.

Lemma step_chanInv o m :
  chanInv m ->
  notPanic (step E o m) /\ chanInv (machineOf (step E o m)).
Proof.
  intros (Hcl & Hn). destruct (running (cl m)) eqn:Hrun; cbn [negb] in Hcl.
  2:{ (* a stopped client *)
    assert (Hsame : forall r : Result unit,
              r = Ok tt m -> notPanic r /\ chanInv (machineOf r)).
    { intros r ->. cbn. unfold chanInv. rewrite Hrun, Hcl, Hn. repeat split. }
    destruct o; cbn [step].
    - apply Hsame. unfold bind. rewrite (Send_not_running _ _ Hrun). reflexivity.
    - apply Hsame. unfold Connect, bind, getClient. rewrite Hrun. reflexivity.
    - apply Hsame. unfold Close, bind, getClient. rewrite Hrun. reflexivity.
    - apply Hsame. unfold tryReset, bind, getClient. rewrite Hrun. reflexivity.
    - apply Hsame. unfold saveErr, bind, getClient. rewrite Hrun. reflexivity.
    - apply Hsame. unfold handleErrResponse, bind, getClient. rewrite Hrun. reflexivity.
    - unfold bind, chanRecv, chanInv.
      destruct (buf (errChan (cl m))); [rewrite Hcl|];
        cbn; rewrite Hrun; cbn; auto.
    - destruct (startRead_spec conn m) as (m' & evs & -> & Hc & _ & _ & Ht & Hx & _).
      cbn. unfold chanInv. rewrite Hc, Ht, chanCloses_app, Hx, Hrun, Hcl, Hn.
      auto. }
  destruct o; cbn [step].
  - destruct (Send_spec pn m Hrun)
      as (r & m' & evs & HS & _ & Hr & Hch & _ & Ht & Hx & _).
    unfold bind. rewrite HS. cbn. unfold chanInv.
    rewrite Hr, Hch, Ht, chanCloses_app, Hx, Hcl, Hn. auto.
  - unfold Connect, bind, getClient. rewrite Hrun. cbn [negb].
    destruct (apnsConnection (cl m)).
    + cbn. unfold chanInv. rewrite Hrun, Hcl, Hn. auto.
    + destruct (openConnection_spec m)
        as (r & m' & evs & HS & _ & (Hr & _ & _ & Hch) & Ht & _ & _ & Hx & _).
      rewrite HS. cbn. unfold chanInv.
      rewrite Hr, Hch, Ht, chanCloses_app, Hx, Hrun, Hcl, Hn. auto.
  - unfold Close, chanClose. unfold_prims. rewrite Hrun. cbn. rewrite Hcl. cbn.
    destruct (apnsConnection (cl m)); cbn; unfold chanInv; cbn;
      rewrite ?chanCloses_app, ?Hn; cbn; auto.
  - unfold tryReset, bind, getClient. rewrite Hrun. cbn [negb].
    destruct (connPtr_eqb (apnsConnection (cl m)) conn);
      cbn; unfold chanInv; cbn; rewrite Hrun, Hcl, Hn; auto.
  - unfold saveErr, bind, getClient. rewrite Hrun. cbn [negb].
    unfold chanSend. rewrite Hcl.
    destruct (Z.of_nat (List.length (buf (errChan (cl m)))) <? cap (errChan (cl m)));
      unfold_prims; cbn; unfold chanInv; cbn;
      rewrite ?chanCloses_app, ?Hrun, ?Hcl, ?Hn; cbn; auto.
  - unfold handleErrResponse, bind, getClient. rewrite Hrun. cbn [negb].
    destruct (Command rsp =? 0).
    { cbn. unfold chanInv. rewrite Hrun, Hcl, Hn. auto. }
    destruct (Tail (sentQ (cl m)) (heap m) (RspIdentifier rsp)) as [[p|] l];
      unfold_prims; cbn.
    + destruct l; cbn; unfold chanInv; cbn;
        rewrite ?chanCloses_app, ?Hrun, ?Hcl, ?Hn; cbn; auto.
    + unfold chanInv; cbn. rewrite ?chanCloses_app, ?Hrun, ?Hcl, ?Hn; cbn; auto.
  - unfold bind, chanRecv, chanInv.
    destruct (buf (errChan (cl m))); [rewrite Hcl|];
      cbn; rewrite Hrun; cbn; auto.
  - destruct (startRead_spec conn m) as (m' & evs & -> & Hc & _ & _ & Ht & Hx & _).
    cbn. unfold chanInv. rewrite Hc, Ht, chanCloses_app, Hx, Hrun, Hcl, Hn.
    auto.
Qed.

Lemma run_cons o ops m :
  run E (o :: ops) m =
    match step E o m with
    | Ok _ m1 => run E ops m1
    | Panic msg m1 => Panic msg m1
    | Block m1 => Block m1
    end.
Proof. reflexivity. Qed.

Lemma run_not_running ops : forall m,
  running (cl m) = false ->
  running (cl (machineOf (run E ops m))) = false.
Proof.
  induction ops as [|o ops IH]; intros m Hrun; [exact Hrun|].
  rewrite run_cons.
  pose proof (step_not_running o m Hrun) as Hs.
  destruct (step E o m) as [[] m1|msg m1|m1]; cbn in Hs |- *; auto.
Qed.

Lemma run_chanInv ops : forall m,
  chanInv m ->
  notPanic (run E ops m) /\ chanInv (machineOf (run E ops m)).
Proof.
  induction ops as [|o ops IH]; intros m Hinv; [cbn; auto|].
  rewrite run_cons.
  destruct (step_chanInv o m Hinv) as (Hp & Hi).
  destruct (step E o m) as [[] m1|msg m1|m1]; cbn in Hp, Hi |- *; auto.
Qed.

Lemma step_counter_range o m :
  0 < IdentifierUbound E <= 2^31 - 1 ->
  0 <= counter (cl m) < IdentifierUbound E ->
  0 <= counter (cl (machineOf (step E o m))) < IdentifierUbound E.
Proof.
  intros HU Hc. destruct o; cbn [step].
  - destruct (running (cl m)) eqn:Hrun.
    + destruct (Send_spec pn m Hrun)
        as (r & m' & evs & HS & _ & _ & _ & Hcnt & _).
      unfold bind. rewrite HS. cbn. rewrite Hcnt.
      apply next_counter; assumption.
    + unfold bind. rewrite (Send_not_running _ _ Hrun). exact Hc.
  - unfold Connect, bind, getClient.
    destruct (running (cl m)); cbn [negb]; [|exact Hc].
    destruct (apnsConnection (cl m)); [exact Hc|].
    destruct (openConnection_spec m)
      as (r & m' & evs & HS & _ & (_ & Hcnt & _) & _).
    rewrite HS. cbn. rewrite Hcnt. exact Hc.
  - unfold Close, chanClose. unfold_prims.
    destruct (running (cl m)); cbn; [|exact Hc].
    destruct (closed (errChan (cl m))); cbn; [exact Hc|].
    destruct (apnsConnection (cl m)); cbn; exact Hc.
  - unfold tryReset, bind, getClient.
    destruct (running (cl m)); cbn [negb]; [|exact Hc].
    destruct (connPtr_eqb (apnsConnection (cl m)) conn); cbn; exact Hc.
  - unfold saveErr, bind, getClient.
    destruct (running (cl m)); cbn [negb]; [|exact Hc].
    unfold chanSend.
    destruct (closed (errChan (cl m))); [exact Hc|].
    destruct (Z.of_nat (List.length (buf (errChan (cl m)))) <? cap (errChan (cl m)));
      unfold_prims; cbn; exact Hc.
  - unfold handleErrResponse, bind, getClient.
    destruct (running (cl m)); cbn [negb]; [|exact Hc].
    destruct (Command rsp =? 0); [exact Hc|].
    destruct (Tail (sentQ (cl m)) (heap m) (RspIdentifier rsp)) as [[p|] l];
      unfold_prims; cbn; [destruct l; cbn|]; exact Hc.
  - unfold bind, chanRecv.
    destruct (buf (errChan (cl m))); [destruct (closed (errChan (cl m)))|];
      cbn; exact Hc.
  - destruct (startRead_spec conn m) as (m' & evs & -> & Hcl & _).
    cbn. rewrite Hcl. exact Hc.
Qed.

(** Along every execution from [create] the counter stays in
    [0, IdentifierUbound). *)
Lemma run_counter_range ops : forall m,
  0 < IdentifierUbound E <= 2^31 - 1 ->
  0 <= counter (cl m) < IdentifierUbound E ->
  0 <= counter (cl (machineOf (run E ops m))) < IdentifierUbound E.
Proof.
  induction ops as [|o ops IH]; intros m HU Hc; [exact Hc|].
  rewrite run_cons.
  pose proof (step_counter_range o m HU Hc) as Hs.
  destruct (step E o m) as [[] m1|msg m1|m1]; cbn in Hs |- *; auto.
Qed.

Lemma create_counter_range gateway h ops :
  0 < IdentifierUbound E <= 2^31 - 1 ->
  0 <= counter (cl (machineOf (run E ops (machineOf (create gateway (boot h))))))
    < IdentifierUbound E.
Proof.
  intros HU. apply run_counter_range; [exact HU | cbn; lia].
Qed.

Lemma Close_stops m m1 : Close m = Ok tt m1 -> running (cl m1) = false.
Proof.
  unfold Close. unfold bind at 1. unfold getClient at 1.
  destruct (running (cl m)) eqn:Hrun; cbn [negb].
  - unfold chanClose. unfold_prims. cbn.
    destruct (closed (errChan (cl m))); [discriminate|]. cbn.
    destruct (apnsConnection (cl m)); cbn; intros H; injection H as <-; reflexivity.
  - intros H; injection H as <-. exact Hrun.
Qed.

Lemma run_Close_stops ops : forall m m',
  In OpClose ops -> run E ops m = Ok tt m' -> running (cl m') = false.
Proof.
  induction ops as [|o ops IH]; intros m m' Hin Hrun; [destruct Hin|].
  rewrite run_cons in Hrun.
  destruct (step E o m) as [[] m1|msg m1|m1] eqn:Hs; try discriminate.
  destruct Hin as [->|Hin].
  - cbn in Hs. apply Close_stops in Hs.
    pose proof (run_not_running ops m1 Hs) as H. rewrite Hrun in H. exact H.
  - eapply IH; eassumption.
Qed.

(** C7. Once [Close] has returned, whatever steps follow, [Send] returns
    the not-running error and changes nothing: no connection is opened,
    nothing is written, no sequence number is assigned and the Replay Queue
    is as it was. *)
Theorem Send_after_Close m m1 ops pn :
  Close m = Ok tt m1 ->
  running (cl (machineOf (run E ops m1))) = false /\
  Send E pn (machineOf (run E ops m1)) =
    Ok (Some "client is not running"%string) (machineOf (run E ops m1)).
Proof.
  intros HC. apply Close_stops in HC.
  pose proof (run_not_running ops m1 HC) as Hrun.
  split; [exact Hrun | apply Send_not_running; exact Hrun].
Qed.

(** C8. From a client made by [create], along every sequence of steps:
    no step panics, [errChan] is closed at most once, and it has been closed
    exactly once as soon as the client is not running, which is the case
    when the sequence contains a [Close] and runs to its end.  On a client
    that is not running, [Close], [saveErr] and [handleErrResponse] return
    at once: the channel is neither closed again nor sent on, and the
    machine is unchanged. *)
Theorem Close_closes_errChan_once gateway h ops :
  let m0 := machineOf (create gateway (boot h)) in
  let res := run E ops m0 in
  notPanic res /\
  (chanCloses (trace (machineOf res)) <= 1)%nat /\
  (chanCloses (trace (machineOf res)) =
     if running (cl (machineOf res)) then 0 else 1)%nat /\
  closed (errChan (cl (machineOf res))) = negb (running (cl (machineOf res))) /\
  (forall m', In OpClose ops -> res = Ok tt m' ->
     running (cl m') = false /\ chanCloses (trace m') = 1%nat) /\
  (forall m rsp, running (cl m) = false ->
     Close m = Ok tt m /\
     saveErr rsp m = Ok tt m /\
     handleErrResponse rsp m = Ok tt m).
Proof.
  intros m0 res.
  assert (Hinv0 : chanInv m0) by (unfold chanInv; cbn; auto).
  destruct (run_chanInv ops m0 Hinv0) as (Hp & Hcl & Hn).
  fold res in Hp, Hcl, Hn.
  split; [exact Hp|].
  split; [rewrite Hn; destruct (running (cl (machineOf res))); lia|].
  split; [exact Hn|]. split; [exact Hcl|]. split.
  - intros m' Hin Hres.
    pose proof (run_Close_stops ops m0 m' Hin Hres) as Hrun.
    rewrite Hres in Hn. cbn in Hn. rewrite Hrun in Hn. auto.
  - intros m rsp Hrun.
    unfold Close, saveErr, handleErrResponse, bind, getClient.
    rewrite Hrun. auto.
Qed.

End Proofs.

(** * The resending goroutine *)

Section Resend.

Variable E : Env.

Lemma setTrace_trace m : setTrace (trace m) m = m.
Proof. destruct m; reflexivity. Qed.

Lemma prepend_prepend {A} t1 t2 (r : Result A) :
  prepend t1 (prepend t2 r) = prepend (t1 ++ t2) r.
Proof.
  destruct r; cbn; unfold setTrace; cbn; rewrite app_assoc; reflexivity.
Qed.

Lemma oblivious_at {A} (x : M A) m :
  oblivious x -> x m = prepend (trace m) (x (setTrace [] m)).
Proof.
  intros H. rewrite <- (H (trace m) m), setTrace_trace. reflexivity.
Qed.

Lemma obl_ret {A} (a : A) : oblivious (ret a).
Proof. intros t m. cbn. unfold setTrace. cbn. rewrite app_nil_r. reflexivity. Qed.

Lemma obl_panic {A} msg : oblivious (@panic A msg).
Proof. intros t m. cbn. unfold setTrace. cbn. rewrite app_nil_r. reflexivity. Qed.

Lemma obl_bind {A B} (x : M A) (f : A -> M B) :
  oblivious x -> (forall a, oblivious (f a)) -> oblivious (bind x f).
Proof.
  intros Hx Hf t m. unfold bind. rewrite (Hx t m).
  destruct (x (setTrace [] m)) as [a m1|msg m1|m1]; cbn; try reflexivity.
  rewrite (Hf a (t ++ trace m1) m1).
  rewrite (oblivious_at (f a) m1 (Hf a)).
  rewrite prepend_prepend. reflexivity.
Qed.

Lemma obl_getClient : oblivious getClient.
Proof. intros t m. cbn. unfold setTrace. cbn. rewrite app_nil_r. reflexivity. Qed.

Lemma obl_putClient c : oblivious (putClient c).
Proof. intros t m. cbn. unfold setTrace. cbn. rewrite app_nil_r. reflexivity. Qed.

Lemma obl_modifyClient f : oblivious (modifyClient f).
Proof.
  unfold modifyClient. apply obl_bind; [apply obl_getClient|].
  intros c. apply obl_putClient.
Qed.

Lemma obl_emit e : oblivious (emit e).
Proof. intros t m. reflexivity. Qed.

Lemma obl_readPn p : oblivious (readPn p).
Proof. intros t m. cbn. unfold setTrace. cbn. rewrite app_nil_r. reflexivity. Qed.

Lemma obl_writePn p v : oblivious (writePn p v).
Proof. intros t m. cbn. unfold setTrace. cbn. rewrite app_nil_r. reflexivity. Qed.

Lemma obl_getCalls : oblivious getCalls.
Proof. intros t m. cbn. unfold setTrace. cbn. rewrite app_nil_r. reflexivity. Qed.

Lemma obl_putCalls k : oblivious (putCalls k).
Proof. intros t m. cbn. unfold setTrace. cbn. rewrite app_nil_r. reflexivity. Qed.

Lemma obl_newConn : oblivious newConn.
Proof. intros t m. cbn. unfold setTrace. cbn. rewrite app_nil_r. reflexivity. Qed.

Ltac obl :=
  repeat first
    [ assumption
    | match goal with H : context [oblivious] |- oblivious _ => apply H end
    | apply obl_ret | apply obl_panic | apply obl_getClient
    | apply obl_putClient | apply obl_modifyClient | apply obl_emit
    | apply obl_readPn | apply obl_writePn | apply obl_getCalls
    | apply obl_putCalls | apply obl_newConn
    | apply obl_bind; [|intros ?]
    | match goal with
      | |- oblivious (match ?x with _ => _ end) => destruct x
      | |- oblivious (if ?b then _ else _) => destruct b
      | |- oblivious (let _ := _ in _) => cbv zeta
      end ].

Lemma obl_chanSend rsp : oblivious (chanSend rsp).
Proof.
  intros t m. unfold chanSend. cbn [cl setTrace].
  destruct (closed (errChan (cl m)));
    [cbn; unfold setTrace; cbn; rewrite app_nil_r; reflexivity|].
  destruct (Z.of_nat (List.length (buf (errChan (cl m)))) <? cap (errChan (cl m)));
    [| cbn; unfold setTrace; cbn; rewrite app_nil_r; reflexivity].
  reflexivity.
Qed.

Lemma obl_chanClose : oblivious chanClose.
Proof.
  intros t m. unfold chanClose. cbn [cl setTrace].
  destruct (closed (errChan (cl m)));
    [cbn; unfold setTrace; cbn; rewrite app_nil_r; reflexivity|].
  reflexivity.
Qed.

Lemma obl_chanRecv : oblivious chanRecv.
Proof.
  intros t m. unfold chanRecv. cbn [cl setTrace].
  destruct (buf (errChan (cl m)));
    [destruct (closed (errChan (cl m)))|];
    cbn; unfold setTrace; cbn; rewrite app_nil_r; reflexivity.
Qed.

Lemma obl_getCertificate : oblivious (getCertificate E).
Proof.
  unfold getCertificate, ioLoadX509KeyPair, ioX509KeyPair. obl.
Qed.

Lemma obl_openConnection : oblivious (openConnection E).
Proof.
  unfold openConnection, logLine, go, ioDialTimeout, ioHandshake.
  pose proof obl_getCertificate. obl.
Qed.

Lemma obl_ioSetWriteDeadline c : oblivious (ioSetWriteDeadline E c).
Proof. unfold ioSetWriteDeadline. obl. Qed.

Lemma obl_ioWrite c p : oblivious (ioWrite E c p).
Proof. unfold ioWrite. obl. Qed.

Lemma obl_reconnectAndWrite payload e : oblivious (reconnectAndWrite E payload e).
Proof.
  unfold reconnectAndWrite, logLine.
  pose proof obl_openConnection.
  pose proof obl_ioSetWriteDeadline. pose proof obl_ioWrite. obl.
Qed.

Lemma obl_connectAndWrite payload : oblivious (connectAndWrite E payload).
Proof.
  unfold connectAndWrite.
  pose proof obl_openConnection. pose proof obl_reconnectAndWrite.
  pose proof obl_ioSetWriteDeadline. pose proof obl_ioWrite. obl.
Qed.

Lemma obl_Send pn : oblivious (Send E pn).
Proof.
  unfold Send, go.
  pose proof obl_connectAndWrite. obl.
Qed.


Lemma obl_Connect : oblivious (Connect E).
Proof. unfold Connect. pose proof obl_openConnection. obl. Qed.

Lemma obl_tryReset conn : oblivious (tryReset conn).
Proof. unfold tryReset. obl. Qed.

Lemma obl_saveErr rsp : oblivious (saveErr rsp).
Proof. unfold saveErr. pose proof obl_chanSend. obl. Qed.

Lemma obl_Close : oblivious Close.
Proof. unfold Close, go. pose proof obl_chanClose. obl. Qed.

Lemma obl_handleErrResponse res : oblivious (handleErrResponse res).
Proof.
  unfold handleErrResponse.
  apply obl_bind; [apply obl_getClient|]. intros c.
  destruct (negb (running c)); [apply obl_ret|].
  destruct (Command res =? 0); [apply obl_ret|].
  intros t m. cbn [heap setTrace].
  destruct (Tail (sentQ c) (heap m) (RspIdentifier res)) as [errPn reSend].
  revert t m.
  change (oblivious
    (logLine (LogHandleErrResponse (RspIdentifier res) errPn) ;;
     match errPn with
     | None => logLine (LogMaxSendQTooShort MAX_SEND_Q)
     | Some p =>
         go (GoErrChannel (mkSendErr p (Some res))) ;;
         modifyClient (fun c => set_sentQ c (Clear (sentQ c))) ;;
         if (0 <? List.length reSend)%nat then go (GoReSend reSend) else ret tt
     end)).
  unfold logLine, go. obl.
Qed.

Lemma obl_startRead conn : oblivious (startRead E conn).
Proof. unfold startRead, ioRead, ioClose, logLine, go. obl. Qed.

Lemma obl_step o : oblivious (step E o).
Proof.
  destruct o; cbn [step].
  - pose proof obl_Send. obl.
  - pose proof obl_Connect. obl.
  - apply obl_Close.
  - apply obl_tryReset.
  - apply obl_saveErr.
  - apply obl_handleErrResponse.
  - pose proof obl_chanRecv. obl.
  - apply obl_startRead.
Qed.

Lemma obl_run ops : oblivious (run E ops).
Proof.
  induction ops as [|o ops IH]; cbn [run]; [apply obl_ret|].
  apply obl_bind; [apply obl_step | intros _; exact IH].
Qed.

Lemma obl_reSendOne pn : oblivious (reSendOne E pn).
Proof. unfold reSendOne, logLine. pose proof obl_Send. obl. Qed.


Lemma withoutReSendLogs_app t1 t2 :
  withoutReSendLogs (t1 ++ t2) = withoutReSendLogs t1 ++ withoutReSendLogs t2.
Proof.
  induction t1 as [|e t1 IH]; cbn; [reflexivity|].
  destruct e as [l| | | | | | | | | | |]; cbn; rewrite ?IH; try reflexivity.
  destruct l; cbn; rewrite ?IH; reflexivity.
Qed.

Lemma sameButReSendLogs_refl m : sameButReSendLogs m m.
Proof. repeat split. Qed.

Lemma oblivious_agree {A} (x : M A) m1 m2 :
  oblivious x -> sameButReSendLogs m1 m2 -> resultsAgree (x m1) (x m2).
Proof.
  intros Hx (Hc & Hh & Hk & Hn & Ht).
  rewrite (oblivious_at x m1 Hx), (oblivious_at x m2 Hx).
  assert (H0 : setTrace [] m1 = setTrace [] m2)
    by (unfold setTrace; rewrite Hc, Hh, Hk, Hn; reflexivity).
  rewrite H0.
  destruct (x (setTrace [] m2)) as [a m|msg m|m]; cbn;
    unfold sameButReSendLogs; cbn;
    rewrite !withoutReSendLogs_app, Ht; repeat split.
Qed.

Lemma resultsAgree_bind {A B} (r1 r2 : Result A) (f g : A -> M B) :
  resultsAgree r1 r2 ->
  (forall a m1 m2, sameButReSendLogs m1 m2 -> resultsAgree (f a m1) (g a m2)) ->
  resultsAgree
    (match r1 with
     | Ok a m => f a m
     | Panic msg m => Panic msg m
     | Block m => Block m
     end)
    (match r2 with
     | Ok a m => g a m
     | Panic msg m => Panic msg m
     | Block m => Block m
     end).
Proof.
  intros Hr Hf.
  destruct r1 as [a1 m1|msg1 m1|m1], r2 as [a2 m2|msg2 m2|m2];
    cbn in Hr; try contradiction.
  - destruct Hr as (<- & Hs). apply Hf. exact Hs.
  - exact Hr.
  - exact Hr.
Qed.

Lemma run_app ops1 ops2 m :
  run E (ops1 ++ ops2) m = (run E ops1 ;; run E ops2) m.
Proof.
  revert m. induction ops1 as [|o ops1 IH]; intros m; [reflexivity|].
  cbn [app]. unfold bind. rewrite !run_cons.
  destruct (step E o m) as [[] m1|msg m1|m1]; try reflexivity.
  rewrite IH. reflexivity.
Qed.

Lemma reSendOne_agrees_with_Send pn m1 m2 :
  sameButReSendLogs m1 m2 ->
  resultsAgree (reSendOne E pn m1) (step E (OpSend pn) m2).
Proof.
  intros Hs. cbn [step]. unfold reSendOne. unfold bind at 1 3.
  apply resultsAgree_bind.
  - apply oblivious_agree; [apply obl_Send | exact Hs].
  - intros [e|] m1' m2' (Hc & Hh & Hk & Hn & Ht); cbn;
      unfold sameButReSendLogs; cbn.
    + rewrite withoutReSendLogs_app. cbn. rewrite app_nil_r. repeat split; assumption.
    + repeat split; assumption.
Qed.

Lemma reSendAmong_agrees l : forall others m1 m2,
  sameButReSendLogs m1 m2 ->
  resultsAgree (reSendAmong E l others m1) (run E (weave l others) m2).
Proof.
  induction l as [|pn l IH]; intros others m1 m2 Hs.
  - cbn. auto.
  - cbn [reSendAmong weave]. unfold bind at 1.
    rewrite run_app. unfold bind at 2.
    apply resultsAgree_bind.
    + apply oblivious_agree; [apply obl_run | exact Hs].
    + intros [] m1' m2' Hs'. unfold bind at 1. rewrite run_cons.
      apply resultsAgree_bind.
      * apply reSendOne_agrees_with_Send. exact Hs'.
      * intros [] m1'' m2'' Hs''. apply IH. exact Hs''.
Qed.

Lemma reSendLoop_alone l m :
  reSendLoop E l m = reSendAmong E l [] m.
Proof.
  revert m. induction l as [|pn l IH]; intros m; [reflexivity|].
  cbn [reSendLoop reSendAmong hd tl run]. unfold bind at 1 2 3. cbn [ret].
  destruct (reSendOne E pn m) as [[] m1|msg m1|m1]; try reflexivity.
  apply IH.
Qed.


Lemma reSendAmong_iteration q rest others m2 ma :
  run E (hd [] others) m2 = Ok tt ma ->
  exists r mb,
    Send E q ma = Ok r mb /\
    reSendAmong E (q :: rest) others m2 =
      reSendAmong E rest (tl others)
        (match r with
         | Some e =>
             setTrace
               (trace mb ++ [Log (LogReSendErr e (Identifier (heap mb q)))]) mb
         | None => mb
         end).
Proof.
  intros Hrun.
  destruct (reSendOne_spec E q ma) as (r & mb & HS & Hone).
  exists r, mb. split; [exact HS|].
  cbn [reSendAmong]. unfold bind at 1. rewrite Hrun.
  unfold bind at 1. rewrite Hone. destruct r; reflexivity.
Qed.

(** C3. A report with a non-zero command whose sequence number is that of
    an entry of the Replay Queue, on a running client: [handleErrResponse]
    hands exactly one [SendErr] pairing the oldest matching entry with the
    report to [ErrChannel], empties the queue and starts one goroutine on
    the entries after the match.  That goroutine, whatever steps the other
    goroutines take between its iterations, calls [Send] on the entries in
    queue order: each iteration is one [Send] on the next entry, an error
    of that [Send] is logged and the loop goes on with the entries that
    remain; apart from these log lines the machine ends as if a user of the
    client had called [Send] on the entries, in order, at the same places.
    On a stopped client every entry is refused and logged, in order. *)
Theorem handleErrResponse_match res m p :
  running (cl m) = true ->
  Command res <> 0 ->
  In p (items (sentQ (cl m))) ->
  Identifier (heap m p) = RspIdentifier res ->
  exists before errPn reSend m',
    items (sentQ (cl m)) = before ++ errPn :: reSend /\
    Identifier (heap m errPn) = RspIdentifier res /\
    (forall q, In q before -> Identifier (heap m q) <> RspIdentifier res) /\
    handleErrResponse res m = Ok tt m' /\
    cl m' = set_sentQ (cl m) (Clear (sentQ (cl m))) /\
    items (sentQ (cl m')) = [] /\
    heap m' = heap m /\
    newEvents m m' =
      Log (LogHandleErrResponse (RspIdentifier res) (Some errPn))
      :: Go (GoErrChannel (mkSendErr errPn (Some res)))
      :: (if (0 <? List.length reSend)%nat then [Go (GoReSend reSend)] else []) /\
    sendErrs (newEvents m m') = [mkSendErr errPn (Some res)] /\
    reSends (newEvents m m') = reSend /\
    (forall m2, reSendLoop E reSend m2 = reSendAmong E reSend [] m2) /\
    (forall m2, exists m3, reSendLoop E reSend m2 = Ok tt m3) /\
    (forall q rest others m2 ma,
       run E (hd [] others) m2 = Ok tt ma ->
       exists r mb,
         Send E q ma = Ok r mb /\
         reSendAmong E (q :: rest) others m2 =
           reSendAmong E rest (tl others)
             (match r with
              | Some e =>
                  setTrace
                    (trace mb ++
                     [Log (LogReSendErr e (Identifier (heap mb q)))]) mb
              | None => mb
              end)) /\
    (forall others m2,
       resultsAgree (reSendAmong E reSend others m2)
         (run E (weave reSend others) m2)) /\
    (forall m2,
       running (cl m2) = false ->
       exists m3,
         reSendLoop E reSend m2 = Ok tt m3 /\
         cl m3 = cl m2 /\ heap m3 = heap m2 /\
         trace m3 = trace m2 ++
           map (fun q => Log (LogReSendErr "client is not running"%string
                                (Identifier (heap m2 q)))) reSend).
Proof.
  intros Hrun Hcmd Hin Hid.
  destruct (tailFrom_some (heap m) (RspIdentifier res) _ p Hin Hid)
    as (before & errPn & reSend & Hitems & He & Hb & Ht).
  exists before, errPn, reSend.
  unfold handleErrResponse.
  unfold bind at 1. unfold getClient at 1. rewrite Hrun. cbn [negb].
  apply Z.eqb_neq in Hcmd. rewrite Hcmd.
  unfold Tail. rewrite Ht. unfold_prims. cbn.
  pose proof (reSendLoop_alone reSend) as Halone.
  pose proof (reSendLoop_total E reSend) as Htot.
  pose proof reSendAmong_iteration as Hiter.
  pose proof (fun others m2 =>
                reSendAmong_agrees reSend others m2 m2
                  (sameButReSendLogs_refl m2)) as Hagree.
  pose proof (reSendLoop_not_running E reSend) as Hstop.
  destruct reSend as [|q0 reSend'];
    (eexists;
     split; [exact Hitems|]; split; [exact He|]; split; [exact Hb|];
     split; [reflexivity|]; cbn [cl heap trace];
     erewrite newEvents_app
       by (cbn [trace]; rewrite <- ?app_assoc; reflexivity);
     cbn -[reSendLoop reSendOne reSendAmong weave run map resultsAgree];
     rewrite ?app_nil_r;
     repeat split; assumption).
Qed.

End Resend.

(** * The theorems at concrete inputs *)

Lemma Send_retry_written_returns_first_error_witness :
  Send envRetry 0%nat testMachine = Ok (Some "broken pipe"%string) retryM /\
  writes (newEvents testMachine retryM) = [Some "broken pipe"%string; None] /\
  sentQ (cl retryM) = sentQ (cl testMachine) /\
  items (sentQ (cl retryM)) = [] /\
  apnsConnection (cl retryM) = None /\
  sendErrs (newEvents testMachine retryM) = [mkSendErr 0%nat None].
Proof.
  assert (HS : Send envRetry 0%nat testMachine
               = Ok (Some "broken pipe"%string) retryM)
    by (vm_compute; reflexivity).
  assert (Hw : writes (newEvents testMachine retryM)
               = [Some "broken pipe"%string; None])
    by (vm_compute; reflexivity).
  assert (Hrun : running (cl testMachine) = true) by reflexivity.
  destruct (Send_retry_written_returns_first_error envRetry 0%nat testMachine
              _ _ _ Hrun HS Hw) as (_ & Hq & Hc & Hs).
  split; [exact HS|]. split; [exact Hw|]. split; [exact Hq|].
  split; [rewrite Hq; reflexivity|]. split; [exact Hc | exact Hs].
Defined.

Lemma Send_writes_at_most_twice_witness :
  exists r m',
    Send envDown 0%nat testMachine = Ok r m' /\
    writes (newEvents testMachine m')
      = [Some "broken pipe"%string; Some "broken pipe"%string] /\
    r = Some "broken pipe"%string /\
    apnsConnection (cl m') = None /\
    sendErrs (newEvents testMachine m') = [mkSendErr 0%nat None].
Proof.
  assert (Hrun : running (cl testMachine) = true) by reflexivity.
  destruct (Send_writes_at_most_twice envDown 0%nat testMachine Hrun)
    as (r & m' & HS & _ & _ & Hboth).
  assert (Hm : downM = m') by exact (f_equal machineOf HS).
  subst m'.
  assert (Hw : writes (newEvents testMachine downM)
               = [Some "broken pipe"%string; Some "broken pipe"%string])
    by (vm_compute; reflexivity).
  destruct (Hboth _ _ Hw) as (Hr & Hc & Hs).
  exists r, downM.
  split; [exact HS|]. split; [exact Hw|]. split; [exact Hr|].
  split; [exact Hc | exact Hs].
Defined.

Lemma handleErrResponse_match_witness :
  exists before errPn reSend m',
    items (sentQ (cl sent3M)) = before ++ errPn :: reSend /\
    items (sentQ (cl sent3M)) = [0%nat; 1%nat; 2%nat] /\
    Identifier (heap sent3M errPn) = 1 /\
    handleErrResponse (report 1) sent3M = Ok tt m' /\
    items (sentQ (cl m')) = [] /\
    sendErrs (newEvents sent3M m') = [mkSendErr errPn (Some (report 1))] /\
    reSends (newEvents sent3M m') = reSend /\
    resultsAgree
      (reSendAmong envDown reSend [[OpTryReset (Some 0%nat)]] m')
      (run envDown (weave reSend [[OpTryReset (Some 0%nat)]]) m').
Proof.
  assert (Hcmd : Command (report 1) <> 0) by (cbn; lia).
  assert (Hin : In 1%nat (items (sentQ (cl sent3M))))
    by (vm_compute; tauto).
  assert (Hrun : running (cl sent3M) = true) by reflexivity.
  assert (Hid : Identifier (heap sent3M 1%nat) = RspIdentifier (report 1))
    by reflexivity.
  destruct (handleErrResponse_match envDown (report 1) sent3M 1%nat
              Hrun Hcmd Hin Hid)
    as (before & errPn & reSend & m' & H1 & H2 & _ & H3 & _ & H4 & _ & _
        & H5 & H6 & _ & _ & _ & Hagree & _).
  assert (Hitems : items (sentQ (cl sent3M)) = [0%nat; 1%nat; 2%nat])
    by reflexivity.
  exists before, errPn, reSend, m'.
  split; [exact H1|]. split; [exact Hitems|]. split; [exact H2|].
  split; [exact H3|]. split; [exact H4|]. split; [exact H5|].
  split; [exact H6 | apply Hagree].
Defined.

Lemma handleErrResponse_no_match_witness :
  exists m',
    items (sentQ (cl smallQueueM)) = [1%nat; 2%nat] /\
    handleErrResponse (report 0) smallQueueM = Ok tt m' /\
    cl m' = cl smallQueueM /\
    sendErrs (newEvents smallQueueM m') = [] /\
    reSends (newEvents smallQueueM m') = [].
Proof.
  assert (Hcmd : Command (report 0) <> 0) by (cbn; lia).
  assert (Hno : forall p, In p (items (sentQ (cl smallQueueM))) ->
                Identifier (heap smallQueueM p) <> RspIdentifier (report 0)).
  { intros p Hp. vm_compute in Hp.
    destruct Hp as [<-|[<-|[]]]; vm_compute; discriminate. }
  assert (Hrun : running (cl smallQueueM) = true) by reflexivity.
  destruct (handleErrResponse_no_match (report 0) smallQueueM Hrun Hcmd Hno)
    as (m' & _ & H1 & H2 & _ & _ & H3 & H4 & _).
  assert (Hitems : items (sentQ (cl smallQueueM)) = [1%nat; 2%nat])
    by reflexivity.
  exists m'. split; [exact Hitems|]. split; [exact H1|]. split; [exact H2|].
  split; [exact H3 | exact H4].
Defined.

Lemma tryReset_clears_same_conn_only_witness :
  exists m1 m2,
    apnsConnection (cl sent3M) = Some 0%nat /\
    tryReset (Some 0%nat) sent3M = Ok tt m1 /\
    apnsConnection (cl m1) = None /\
    tryReset (Some 7%nat) sent3M = Ok tt m2 /\
    m2 = sent3M.
Proof.
  assert (Hrun : running (cl sent3M) = true) by reflexivity.
  assert (Hconn : apnsConnection (cl sent3M) = Some 0%nat) by reflexivity.
  destruct (tryReset_clears_same_conn_only (Some 0%nat) sent3M Hrun)
    as (m1 & H1 & _ & _ & _ & Hsame & _).
  destruct (tryReset_clears_same_conn_only (Some 7%nat) sent3M Hrun)
    as (m2 & H2 & _ & _ & _ & _ & Hother).
  exists m1, m2. split; [exact Hconn|]. split; [exact H1|].
  split; [rewrite (Hsame Hconn); reflexivity|].
  split; [exact H2|]. apply Hother. vm_compute. discriminate.
Defined.

Lemma Send_after_Close_witness :
  running (cl testMachine) = true /\
  Close testMachine = Ok tt closedM /\
  Send envOk 5%nat (machineOf (run envOk [OpConnect; OpSend 1%nat] closedM))
    = Ok (Some "client is not running"%string)
         (machineOf (run envOk [OpConnect; OpSend 1%nat] closedM)).
Proof.
  assert (HC : Close testMachine = Ok tt closedM) by (vm_compute; reflexivity).
  assert (Hrun : running (cl testMachine) = true) by reflexivity.
  split; [exact Hrun|]. split; [exact HC|].
  apply (Send_after_Close envOk testMachine closedM
           [OpConnect; OpSend 1%nat] 5%nat HC).
Defined.

Lemma Send_advances_counter_witness :
  exists r m',
    counter (cl sent3M) = 3 /\
    Send envDown 1%nat sent3M = Ok r m' /\
    Identifier (heap m' 1%nat) = 3 /\
    counter (cl m') = 4.
Proof.
  assert (HU : 0 < IdentifierUbound envDown <= 2^31 - 1) by (cbn; lia).
  assert (Hc : 0 <= counter (cl sent3M) < IdentifierUbound envDown)
    by (vm_compute; split; [discriminate | reflexivity]).
  assert (Hrun : running (cl sent3M) = true) by reflexivity.
  assert (Hcnt : counter (cl sent3M) = 3) by reflexivity.
  destruct (Send_advances_counter envDown 1%nat sent3M HU Hc Hrun)
    as (r & m' & HS & Hid & _ & _ & Hnext & _).
  exists r, m'. split; [exact Hcnt|]. split; [exact HS|].
  rewrite Hcnt in Hid, Hnext.
  split; [exact Hid|]. apply Hnext. vm_compute. reflexivity.
Defined.

Lemma Send_serialization_error_witness :
  exists m',
    Send envBadPayload 0%nat testMachine
      = Ok (Some "payload too large"%string) m' /\
    trace m' = trace testMachine /\
    apnsConnection (cl m') = apnsConnection (cl testMachine) /\
    sentQ (cl m') = sentQ (cl testMachine) /\
    Identifier (heap m' 0%nat) = 0.
Proof.
  assert (Hrun : running (cl testMachine) = true) by reflexivity.
  assert (Hser : snd (ToBytes envBadPayload
                        (mkPn (counter (cl testMachine))
                           (Payload (heap testMachine 0%nat))))
                 = Some "payload too large"%string) by reflexivity.
  destruct (Send_serialization_error envBadPayload 0%nat testMachine
              "payload too large"%string Hrun Hser)
    as (m' & HS & Ht & _ & _ & _ & Hc & Hq & _ & Hid).
  exists m'. split; [exact HS|]. split; [exact Ht|]. split; [exact Hc|].
  split; [exact Hq | exact Hid].
Defined.

Lemma Close_closes_errChan_once_witness :
  exists m',
    run envOk [OpSend 0%nat; OpClose; OpSaveErr (report 0); OpClose;
               OpHandleErrResponse (report 0); OpSend 1%nat]
      (machineOf (create "gateway.push.apple.com:2195" (boot testHeap)))
      = Ok tt m' /\
    running (cl m') = false /\
    chanCloses (trace m') = 1%nat.
Proof.
  pose proof (Close_closes_errChan_once envOk "gateway.push.apple.com:2195"
                testHeap
                [OpSend 0%nat; OpClose; OpSaveErr (report 0); OpClose;
                 OpHandleErrResponse (report 0); OpSend 1%nat])
    as (_ & _ & _ & _ & Hclose & _).
  eexists. split; [vm_compute; reflexivity|].
  apply Hclose; [cbn; tauto | vm_compute; reflexivity].
Defined.

Lemma startRead_closes_on_read_error_only_witness :
  exists m',
    startRead envOk 0%nat sent3M = Ok tt m' /\
    closes (newEvents sent3M m') = [] /\
    resetRequests (newEvents sent3M m') = [] /\
    apnsConnection (cl m') = Some 0%nat.
Proof.
  assert (Hread : snd (Read envOk 0%nat) = None) by reflexivity.
  assert (Hconn : apnsConnection (cl sent3M) = Some 0%nat) by reflexivity.
  destruct (startRead_closes_on_read_error_only envOk 0%nat sent3M)
    as (m' & HS & _ & _ & _ & Hok).
  destruct (Hok Hread) as (Hcl & Hrs & _ & Hc).
  exists m'. split; [exact HS|]. split; [exact Hcl|]. split; [exact Hrs|].
  rewrite Hc. exact Hconn.
Defined.

(** C5 at a concrete input: the reader of connection 0 receives the
    frame [8 8 0 0 0 1], reports it and returns, and the connection has not
    been closed. *)
Lemma startRead_reported_frame_not_closed :
  startRead envOk 0%nat sent3M = Ok tt readM /\
  newEvents sent3M readM =
    [IoRead 0%nat [x08; x08; x00; x00; x00; x01] None;
     Log (LogGetErrResponse (report 1) "invalid token");
     Go (GoSaveErr (report 1))] /\
  closes (newEvents sent3M readM) = [] /\
  ~ In 0%nat (closes (newEvents sent3M readM)).
Proof.
  split; [vm_compute; reflexivity|].
  split; [vm_compute; reflexivity|].
  split; [vm_compute; reflexivity|].
  vm_compute. intros [].
Defined.

(** * Further properties of the code *)

Section More.

Variable E : Env.

(** ** Certificates *)

Lemma getCertificate_cases m :
  (PrivateKey (certificate (cl m)) <> None /\ getCertificate E m = Ok None m) \/
  (PrivateKey (certificate (cl m)) = None /\
   exists crt err ev,
     getCertificate E m =
       Ok err (mkMachine (set_certificate (cl m) crt) (heap m)
                 (bumpCert (calls m)) (nextConn m) (trace m ++ [ev])) /\
     ((String.length (CertificateBase64 (cl m)) = 0%nat /\
       String.length (KeyBase64 (cl m)) = 0%nat /\
       (crt, err) = LoadX509KeyPair E (nCert (calls m))
                      (CertificateFile (cl m)) (KeyFile (cl m)) /\
       ev = IoLoadX509KeyPair (CertificateFile (cl m)) (KeyFile (cl m)) err) \/
      ((String.length (CertificateBase64 (cl m)) <> 0%nat \/
        String.length (KeyBase64 (cl m)) <> 0%nat) /\
       (crt, err) = X509KeyPair E (nCert (calls m))
                      (CertificateBase64 (cl m)) (KeyBase64 (cl m)) /\
       ev = IoX509KeyPair (CertificateBase64 (cl m)) (KeyBase64 (cl m)) err))).
Proof.
  unfold getCertificate. unfold_prims. cbn.
  destruct (PrivateKey (certificate (cl m))) as [k|].
  - left. split; [discriminate | reflexivity].
  - right. split; [reflexivity|].
    destruct (Nat.eqb_spec (String.length (CertificateBase64 (cl m))) 0) as [H1|H1];
      destruct (Nat.eqb_spec (String.length (KeyBase64 (cl m))) 0) as [H2|H2]; cbn.
    + destruct (LoadX509KeyPair E (nCert (calls m)) (CertificateFile (cl m))
                  (KeyFile (cl m))) as [crt err] eqn:HL.
      exists crt, err, (IoLoadX509KeyPair (CertificateFile (cl m)) (KeyFile (cl m)) err).
      split; [reflexivity|]. left. auto.
    + destruct (X509KeyPair E (nCert (calls m)) (CertificateBase64 (cl m))
                  (KeyBase64 (cl m))) as [crt err] eqn:HL.
      exists crt, err, (IoX509KeyPair (CertificateBase64 (cl m)) (KeyBase64 (cl m)) err).
      split; [reflexivity|]. right. auto.
    + destruct (X509KeyPair E (nCert (calls m)) (CertificateBase64 (cl m))
                  (KeyBase64 (cl m))) as [crt err] eqn:HL.
      exists crt, err, (IoX509KeyPair (CertificateBase64 (cl m)) (KeyBase64 (cl m)) err).
      split; [reflexivity|]. right. auto.
    + destruct (X509KeyPair E (nCert (calls m)) (CertificateBase64 (cl m))
                  (KeyBase64 (cl m))) as [crt err] eqn:HL.
      exists crt, err, (IoX509KeyPair (CertificateBase64 (cl m)) (KeyBase64 (cl m)) err).
      split; [reflexivity|]. right. auto.
Qed.

(** X1. [getCertificate] loads a key pair only while the client holds none:
    with a private key in [certificate] it returns nil and touches nothing;
    without one it makes exactly one library call ([LoadX509KeyPair] on the
    two paths when both blocks are empty, [X509KeyPair] on the two blocks
    otherwise), stores the certificate that the call returned (also when
    the call failed) and returns the call's error, changing nothing else.
    A load that left a private key is not repeated by the next call; one
    that left none is made again. *)
Theorem getCertificate_loads_once m :
  exists r m',
    getCertificate E m = Ok r m' /\
    (PrivateKey (certificate (cl m)) <> None -> r = None /\ m' = m) /\
    (PrivateKey (certificate (cl m)) = None ->
       let fromFiles :=
         ((String.length (CertificateBase64 (cl m)) =? 0)%nat
          && (String.length (KeyBase64 (cl m)) =? 0)%nat)%bool in
       let res :=
         if fromFiles
         then LoadX509KeyPair E (nCert (calls m))
                (CertificateFile (cl m)) (KeyFile (cl m))
         else X509KeyPair E (nCert (calls m))
                (CertificateBase64 (cl m)) (KeyBase64 (cl m)) in
       r = snd res /\
       cl m' = set_certificate (cl m) (fst res) /\
       heap m' = heap m /\ nextConn m' = nextConn m /\
       calls m' = bumpCert (calls m) /\
       newEvents m m' =
         [if fromFiles
          then IoLoadX509KeyPair (CertificateFile (cl m)) (KeyFile (cl m))
                 (snd res)
          else IoX509KeyPair (CertificateBase64 (cl m)) (KeyBase64 (cl m))
                 (snd res)] /\
       List.length (certLoads (newEvents m m')) = 1%nat /\
       nCert (calls m') = S (nCert (calls m)) /\
       (PrivateKey (certificate (cl m')) <> None ->
        getCertificate E m' = Ok None m') /\
       (PrivateKey (certificate (cl m')) = None ->
        exists r2 m2, getCertificate E m' = Ok r2 m2 /\
          List.length (certLoads (newEvents m' m2)) = 1%nat)).
Proof.
  assert (Hagain : forall m1,
    (PrivateKey (certificate (cl m1)) <> None ->
     getCertificate E m1 = Ok None m1) /\
    (PrivateKey (certificate (cl m1)) = None ->
     exists r2 m2, getCertificate E m1 = Ok r2 m2 /\
       List.length (certLoads (newEvents m1 m2)) = 1%nat)).
  { intros m1.
    destruct (getCertificate_cases m1)
      as [(Hk & HG) | (Hk & crt & err & ev & HG & Hev)].
    - split; [intros _; exact HG | intros H; contradiction].
    - split; [intros H; contradiction|]. intros _.
      eexists _, _. split; [exact HG|].
      erewrite newEvents_app by reflexivity.
      destruct Hev as [(_ & _ & _ & ->) | (_ & _ & ->)]; reflexivity. }
  destruct (getCertificate_cases m)
    as [(Hk & HG) | (Hk & crt & err & ev & HG & Hev)].
  - exists None, m. split; [exact HG|].
    split; [auto | intros H; contradiction].
  - eexists _, _. split; [exact HG|].
    split; [intros H; contradiction|].
    intros _. cbv zeta. cbn [cl heap calls nextConn].
    erewrite newEvents_app by reflexivity.
    match goal with |- context [getCertificate E ?m1] =>
      pose proof (Hagain m1) as Hm1
    end.
    cbn [cl] in Hm1.
    destruct Hev as [(Ha & Hb & Hres & ->) | (Hne & Hres & ->)].
    + rewrite Ha, Hb. cbn [Nat.eqb andb]. rewrite <- Hres. cbn [fst snd].
      repeat (split; [reflexivity|]). exact Hm1.
    + assert (Hf : ((String.length (CertificateBase64 (cl m)) =? 0)%nat
                    && (String.length (KeyBase64 (cl m)) =? 0)%nat)%bool = false).
      { destruct Hne as [H|H]; apply Nat.eqb_neq in H; rewrite H;
          [reflexivity | apply andb_false_r]. }
      rewrite Hf, <- Hres. cbn [fst snd].
      repeat (split; [reflexivity|]). exact Hm1.
Qed.

(** ** Connections *)

(** What [openConnection] does to the machine apart from the certificate:
    the events it adds, the connection objects it allocates and the cached
    connection. *)
Lemma openConnection_io m :
  exists r m' evs,
    openConnection E m = Ok r m' /\
    trace m' = trace m ++ evs /\
    (List.length (certLoads evs) <= 1)%nat /\
    (PrivateKey (certificate (cl m)) <> None ->
       certificate (cl m') = certificate (cl m) /\ certLoads evs = []) /\
    (List.length (dials evs) <= 1)%nat /\
    (nextConn m <= nextConn m' <= S (nextConn m))%nat /\
    match r with
    | None =>
        apnsConnection (cl m') = Some (nextConn m) /\
        nextConn m' = S (nextConn m) /\
        readersStarted evs = [nextConn m] /\
        dials evs = [None]
    | Some e =>
        apnsConnection (cl m') = apnsConnection (cl m) /\
        readersStarted evs = [] /\
        exists l, last evs (Log LogOpenConnection) = Log l /\
          (l = LogCertErr e \/ l = LogOpenConnectionErr e \/ l = LogTlsHandshakeErr e)
    end.
Proof.
  unfold openConnection.
  unfold bind at 1. unfold logLine at 1, emit at 1.
  unfold bind at 1.
  match goal with |- context [getCertificate E ?m0] =>
    destruct (getCertificate_cases m0)
      as [(Hk & ->) | (Hk & crt & err & ev & -> & Hev)]
  end; cbn in Hk.
  - unfold_prims. cbn.
    destruct (DialTimeout E (nDial (calls m)) (Gateway (cl m))) as [e|]; cbn;
      [| destruct (Handshake E (nHandshake (calls m)) (nextConn m)) as [e|]; cbn].
    all: do 3 eexists; split; [reflexivity|]; cbn.
    all: split; [rewrite <- ?app_assoc; cbn; reflexivity|].
    all: cbn; repeat split; try lia; try reflexivity.
    all: eexists; split; [reflexivity | auto].
  - cbn in Hev.
    assert (Hsub : ev = IoLoadX509KeyPair (CertificateFile (cl m)) (KeyFile (cl m)) err
                   \/ ev = IoX509KeyPair (CertificateBase64 (cl m)) (KeyBase64 (cl m)) err)
      by (destruct Hev as [(_ & _ & _ & ->) | (_ & _ & ->)]; auto).
    clear Hev.
    destruct err as [e|]; unfold_prims; cbn;
      [| destruct (DialTimeout E (nDial (calls m)) (Gateway (cl m))) as [e|]; cbn;
         [| destruct (Handshake E (nHandshake (calls m)) (nextConn m)) as [e|]; cbn]].
    all: do 3 eexists; split; [reflexivity|]; cbn.
    all: split; [rewrite <- ?app_assoc; cbn; reflexivity|].
    all: destruct Hsub as [-> | ->]; cbn.
    all: repeat split; try lia; try reflexivity; try contradiction.
    all: eexists; split; [reflexivity | auto].
Qed.

(** X2. [openConnection] either succeeds, and then the cached connection is
    a connection object allocated by this call, exactly one reader was
    started, bound to that connection, and exactly one dial was made, which
    succeeded; or it returns an error, and then the cached connection is as
    before, no reader was started, and the last line logged carries the
    error.  It dials at most once and loads the key pair at most once, and
    not at all when the client already holds a private key. *)
Theorem openConnection_outcome m :
  exists r m',
    openConnection E m = Ok r m' /\
    (List.length (certLoads (newEvents m m')) <= 1)%nat /\
    (PrivateKey (certificate (cl m)) <> None -> certLoads (newEvents m m') = []) /\
    (List.length (dials (newEvents m m')) <= 1)%nat /\
    (r = None ->
       apnsConnection (cl m') = Some (nextConn m) /\
       nextConn m' = S (nextConn m) /\
       readersStarted (newEvents m m') = [nextConn m] /\
       dials (newEvents m m') = [None]) /\
    (forall e, r = Some e ->
       apnsConnection (cl m') = apnsConnection (cl m) /\
       readersStarted (newEvents m m') = [] /\
       exists l, last (newEvents m m') (Log LogOpenConnection) = Log l /\
         (l = LogCertErr e \/ l = LogOpenConnectionErr e \/
          l = LogTlsHandshakeErr e)).
Proof.
  destruct (openConnection_io m)
    as (r & m' & evs & HO & Ht & Hc & Hk & Hd & _ & Hr).
  exists r, m'. rewrite (newEvents_app _ _ _ Ht).
  split; [exact HO|]. split; [exact Hc|].
  split; [intros H; apply Hk; exact H|]. split; [exact Hd|].
  split.
  - intros ->. exact Hr.
  - intros e ->. exact Hr.
Qed.

(** X3. A reader of an earlier connection cannot clear a connection that
    [openConnection] has just cached: the new connection object differs
    from every object allocated before, so [tryReset] with an earlier one
    leaves the machine as it is. *)
Theorem stale_reader_keeps_new_connection m m' c :
  openConnection E m = Ok None m' ->
  running (cl m') = true ->
  (c < nextConn m)%nat ->
  apnsConnection (cl m') = Some (nextConn m) /\
  tryReset (Some c) m' = Ok tt m' /\
  exists m2, tryReset (Some (nextConn m)) m' = Ok tt m2 /\
             apnsConnection (cl m2) = None.
Proof.
  intros HO Hrun Hc.
  destruct (openConnection_io m) as (r & m0 & evs & HO' & _ & _ & _ & _ & _ & Hr).
  rewrite HO in HO'. injection HO' as <- <-.
  destruct Hr as (Hconn & _).
  split; [exact Hconn|].
  unfold tryReset, bind, getClient. rewrite Hrun, Hconn. cbn.
  destruct (Nat.eqb_spec (nextConn m) c) as [Heq|_]; [exfalso; lia|].
  split; [reflexivity|]. rewrite Nat.eqb_refl.
  eexists. split; reflexivity.
Qed.

(** X4. [Connect] on a stopped client returns the not-running error and
    changes nothing; on a running client with a cached connection it
    returns nil and changes nothing (no call to the network); and whenever
    it returns nil the client is running and holds a connection. *)
Theorem Connect_outcome m :
  exists r m',
    Connect E m = Ok r m' /\
    (running (cl m) = false ->
       r = Some "client is not running"%string /\ m' = m) /\
    (running (cl m) = true -> apnsConnection (cl m) <> None ->
       r = None /\ m' = m) /\
    (r = None ->
       running (cl m') = true /\ exists cn, apnsConnection (cl m') = Some cn) /\
    (running (cl m) = true -> apnsConnection (cl m) = None ->
       forall e, r = Some e -> apnsConnection (cl m') = None /\
                               readersStarted (newEvents m m') = []).
Proof.
  unfold Connect, bind, getClient.
  destruct (running (cl m)) eqn:Hrun; cbn [negb].
  2:{ exists (Some "client is not running"%string), m. unfold ret.
      repeat split; try discriminate. }
  destruct (apnsConnection (cl m)) as [cn|] eqn:Hconn.
  - exists None, m. unfold ret.
    split; [reflexivity|]. split; [discriminate|].
    split; [intros _ _; split; reflexivity|].
    split; [intros _; split; [exact Hrun | exists cn; exact Hconn]|].
    intros _ H. discriminate.
  - destruct (openConnection_io m)
      as (r & m' & evs & HO & Ht & _ & _ & _ & _ & Hr).
    destruct (openConnection_spec E m)
      as (r0 & m0 & evs0 & HO0 & _ & (Hrun' & _) & _).
    rewrite HO in HO0. injection HO0 as <- <-.
    exists r, m'. split; [exact HO|].
    split; [discriminate|]. split; [intros _ H; contradiction|].
    rewrite (newEvents_app _ _ _ Ht). split.
    + intros ->. destruct Hr as (Hc & _).
      split; [congruence | eexists; exact Hc].
    + intros _ _ e ->. destruct Hr as (Hc & Hrs & _).
      split; [congruence | exact Hrs].
Qed.


(** ** Sending *)

(** X5. What the result of [Send] on a running client tells its caller.
    Nil: exactly one socket write was made, it succeeded, the notification
    was appended to the Replay Queue, a connection is cached and nothing was
    handed to [ErrChannel].  An error: the Replay Queue is as before, and
    unless the error is that of [ToBytes] (then nothing at all happened on
    the network) the cached connection was dropped and exactly one
    [SendErr] with the notification and a nil [Res] was handed to
    [ErrChannel], also when the error arose before any write. *)
Theorem Send_result_meaning pn m :
  running (cl m) = true ->
  exists r m',
    Send E pn m = Ok r m' /\
    (r = None ->
       writes (newEvents m m') = [None] /\
       sendErrs (newEvents m m') = [] /\
       sentQ (cl m') = Append (sentQ (cl m)) pn /\
       exists cn, apnsConnection (cl m') = Some cn) /\
    (forall e, r = Some e ->
       sentQ (cl m') = sentQ (cl m) /\
       ((snd (ToBytes E (mkPn (counter (cl m)) (Payload (heap m pn)))) = Some e /\
         newEvents m m' = []) \/
        (snd (ToBytes E (mkPn (counter (cl m)) (Payload (heap m pn)))) = None /\
         apnsConnection (cl m') = None /\
         sendErrs (newEvents m m') = [mkSendErr pn None]))).
Proof.
  intros Hrun.
  destruct (Send_spec E pn m Hrun)
    as (r & m' & evs & HS & _ & _ & _ & _ & Ht & _ & Hout).
  exists r, m'. split; [exact HS|].
  rewrite (newEvents_app _ _ _ Ht).
  destruct Hout as [e0 Hser -> -> Hc Hq _ | cn Hser -> Hw Hse Hc Hq
                    | e0 conn Hser -> _ Hse Hc Hq].
  - split; [discriminate|]. intros e H. injection H as <-.
    split; [exact Hq|]. left. split; [exact Hser | reflexivity].
  - split; [|discriminate]. intros _.
    split; [exact Hw|]. split; [exact Hse|]. split; [exact Hq|].
    exists cn. exact Hc.
  - split; [discriminate|]. intros e H. injection H as <-.
    split; [exact Hq|]. right. auto.
Qed.

Lemma sends_running l : forall m,
  0 < IdentifierUbound E <= 2^31 - 1 ->
  0 <= counter (cl m) < IdentifierUbound E ->
  running (cl m) = true ->
  exists m',
    run E (map OpSend l) m = Ok tt m' /\
    running (cl m') = true /\
    counter (cl m') =
      (counter (cl m) + Z.of_nat (List.length l)) mod IdentifierUbound E /\
    (forall q, ~ In q l -> heap m' q = heap m q) /\
    (NoDup l -> forall i q, nth_error l i = Some q ->
       Identifier (heap m' q) =
         (counter (cl m) + Z.of_nat i) mod IdentifierUbound E).
Proof.
  induction l as [|pn l IH]; intros m HU Hc Hrun.
  - exists m. cbn. rewrite Z.add_0_r, Z.mod_small by lia.
    repeat split; try assumption.
    intros _ [|i] q H; discriminate.
  - cbn [map]. rewrite run_cons. cbn [step].
    destruct (Send_spec E pn m Hrun)
      as (r & m1 & evs & HS & Hh & Hrun1 & _ & Hcnt & _ & _ & _).
    unfold bind at 1. rewrite HS. cbn [ret].
    destruct (next_counter _ _ HU Hc) as (Hn & Hb).
    destruct (IH m1 HU) as (m' & HL & Hrun' & Hcnt' & Hfr & Hord).
    { rewrite Hcnt. exact Hb. }
    { exact Hrun1. }
    exists m'. split; [exact HL|]. split; [exact Hrun'|].
    rewrite Hcnt, Hn in Hcnt', Hord.
    split; [|split].
    + rewrite Hcnt'. cbn [List.length]. rewrite Nat2Z.inj_succ.
      rewrite Zplus_mod_idemp_l. f_equal. lia.
    + intros q Hq. rewrite Hfr by (intros Hin; apply Hq; right; exact Hin).
      rewrite Hh. destruct (Nat.eqb_spec q pn) as [->|]; [|reflexivity].
      exfalso. apply Hq. left. reflexivity.
    + intros Hnd i q Hi. inversion Hnd as [|x xs Hnotin Hnd']; subst.
      destruct i as [|i]; cbn in Hi.
      * injection Hi as <-. rewrite Hfr by assumption.
        rewrite Hh, Nat.eqb_refl. cbn.
        rewrite Z.add_0_r, Z.mod_small by lia. reflexivity.
      * rewrite (Hord Hnd' i q Hi). rewrite Nat2Z.inj_succ.
        rewrite Zplus_mod_idemp_l. f_equal. lia.
Qed.

Lemma mod_shift_inj U c i j :
  0 < U -> 0 <= i < U -> 0 <= j < U ->
  (c + i) mod U = (c + j) mod U -> i = j.
Proof.
  intros HU Hi Hj Heq.
  assert (H : (i - j) mod U = 0).
  { replace (i - j) with ((c + i) - (c + j)) by lia.
    rewrite Zminus_mod, Heq, Z.sub_diag. apply Zmod_0_l. }
  apply Z.mod_divide in H; [|lia]. destruct H as (k & Hk).
  assert (Hk0 : k = 0).
  { destruct (Z.lt_trichotomy k 0) as [Hl|[Hz|Hg]]; [|exact Hz|].
    - assert (k * U <= - U) by nia. lia.
    - assert (U <= k * U) by nia. lia. }
  subst k. lia.
Qed.

(** X6. Distinct notifications sent one after the other on a running
    client, no more of them than [IdentifierUbound], whatever happens to
    each on the network: the i-th receives the i-th next value of the
    counter modulo [IdentifierUbound], and no two of them carry the same
    sequence number afterwards. *)
Theorem consecutive_sends_distinct_identifiers l m :
  0 < IdentifierUbound E <= 2^31 - 1 ->
  0 <= counter (cl m) < IdentifierUbound E ->
  running (cl m) = true ->
  NoDup l ->
  Z.of_nat (List.length l) <= IdentifierUbound E ->
  exists m',
    run E (map OpSend l) m = Ok tt m' /\
    counter (cl m') =
      (counter (cl m) + Z.of_nat (List.length l)) mod IdentifierUbound E /\
    (forall i q, nth_error l i = Some q ->
       Identifier (heap m' q) =
         (counter (cl m) + Z.of_nat i) mod IdentifierUbound E) /\
    (forall p q, In p l -> In q l -> p <> q ->
       Identifier (heap m' p) <> Identifier (heap m' q)).
Proof.
  intros HU Hc Hrun Hnd Hlen.
  destruct (sends_running l m HU Hc Hrun) as (m' & HR & _ & Hcnt & _ & Hord).
  exists m'. split; [exact HR|]. split; [exact Hcnt|].
  split; [exact (Hord Hnd)|].
  intros p q Hp Hq Hne Heq.
  apply In_nth_error in Hp, Hq.
  destruct Hp as (i & Hi), Hq as (j & Hj).
  assert (Hil : (i < List.length l)%nat)
    by (apply nth_error_Some; rewrite Hi; discriminate).
  assert (Hjl : (j < List.length l)%nat)
    by (apply nth_error_Some; rewrite Hj; discriminate).
  rewrite (Hord Hnd i p Hi), (Hord Hnd j q Hj) in Heq.
  apply mod_shift_inj in Heq; try lia.
  apply Nat2Z.inj in Heq. subst j. rewrite Hi in Hj. injection Hj as ->.
  apply Hne. reflexivity.
Qed.

(** X7. A [Send] that returns nil on a client with a cached connection used
    that connection and nothing else: the only calls to the network are one
    [SetWriteDeadline] and one [Write] of the serialized notification on the
    cached connection, which stays cached; no connection object is
    allocated and no reader started. *)
Theorem Send_reuses_cached_connection pn m cn m' :
  running (cl m) = true ->
  apnsConnection (cl m) = Some cn ->
  Send E pn m = Ok None m' ->
  newEvents m m' =
    [IoSetWriteDeadline cn None;
     IoWrite cn (fst (ToBytes E (mkPn (counter (cl m)) (Payload (heap m pn)))))
       None] /\
  apnsConnection (cl m') = Some cn /\
  nextConn m' = nextConn m /\
  certificate (cl m') = certificate (cl m).
Proof.
  intros Hrun Hconn. unfold Send.
  unfold bind at 1. unfold getClient at 1. rewrite Hrun. cbn [negb].
  unfold_prims. cbn. rewrite Nat.eqb_refl.
  destruct (ToBytes E (mkPn (counter (cl m)) (Payload (heap m pn))))
    as [payload [e|]]; cbn; [intros H; inversion H|].
  unfold connectAndWrite. unfold_prims. cbn. repeat (rewrite Hconn; cbn).
  destruct (SetWriteDeadline E (nDeadline (calls m)) cn) as [e|]; cbn;
    [intros H; inversion H|].
  destruct (Write E (nWrite (calls m)) cn payload) as [e|]; cbn.
  - match goal with |- context [reconnectAndWrite E payload e ?m0] =>
      destruct (reconnectAndWrite_spec E payload e m0)
        as (r & m2 & evs2 & -> & _ & _ & _ & _ & _ & Hr2)
    end.
    inversion Hr2 as [e1 He _ | c1 _ Hx _ | e1 e2 He _ | e1 e2 He _ | e1 c1 He _ _];
      try discriminate Hx; subst r; cbn; intros H; inversion H.
  - intros H. injection H as <-. cbn.
    erewrite newEvents_app by (cbn; rewrite <- ?app_assoc; reflexivity).
    cbn. rewrite Hconn. repeat split.
Qed.

(** X8. When [SetWriteDeadline] on the cached connection fails, [Send]
    returns that error without writing and without reconnecting: no write,
    no dial, the connection is dropped and one [SendErr] is handed to
    [ErrChannel]. *)
Theorem Send_deadline_error_not_retried pn m cn e :
  running (cl m) = true ->
  apnsConnection (cl m) = Some cn ->
  snd (ToBytes E (mkPn (counter (cl m)) (Payload (heap m pn)))) = None ->
  SetWriteDeadline E (nDeadline (calls m)) cn = Some e ->
  exists m',
    Send E pn m = Ok (Some e) m' /\
    newEvents m m' =
      [IoSetWriteDeadline cn (Some e); Go (GoErrChannel (mkSendErr pn None))] /\
    writes (newEvents m m') = [] /\
    dials (newEvents m m') = [] /\
    apnsConnection (cl m') = None /\
    sentQ (cl m') = sentQ (cl m).
Proof.
  intros Hrun Hconn Hser Hdl. unfold Send.
  unfold bind at 1. unfold getClient at 1. rewrite Hrun. cbn [negb].
  unfold_prims. cbn. rewrite Nat.eqb_refl.
  destruct (ToBytes E (mkPn (counter (cl m)) (Payload (heap m pn))))
    as [payload ser]. cbn in Hser. subst ser. cbn.
  unfold connectAndWrite. unfold_prims. cbn. repeat (rewrite Hconn; cbn).
  rewrite Hdl. cbn.
  eexists. split; [reflexivity|]. cbn.
  erewrite newEvents_app by (cbn; rewrite <- ?app_assoc; reflexivity).
  repeat split.
Qed.


(** ** The reader *)

Lemma byteZ_range b : 0 <= byteZ b < 256.
Proof.
  unfold byteZ. pose proof (Byte.to_N_bounded b). lia.
Qed.

Lemma lor_shiftl_add a b n :
  0 <= n -> 0 <= a -> 0 <= b < 2^n ->
  Z.lor (Z.shiftl a n) b = a * 2^n + b.
Proof.
  intros Hn Ha Hb. rewrite Z.shiftl_mul_pow2 by lia.
  assert (Hland : Z.land (a * 2^n) b = 0).
  { apply Z.bits_inj'. intros i Hi. rewrite Z.land_spec, Z.bits_0.
    destruct (Z.lt_ge_cases i n) as [Hlt|Hge].
    - rewrite Z.mul_pow2_bits_low by lia. reflexivity.
    - assert (Hbi : Z.testbit b i = false).
      { destruct (Z.eq_dec b 0) as [->|Hnz]; [apply Z.bits_0|].
        apply Z.bits_above_log2; [lia|].
        assert (Z.log2 b < n) by (apply Z.log2_lt_pow2; lia). lia. }
      rewrite Hbi. apply andb_false_r. }
  rewrite <- (Z.lxor_lor _ _ Hland). symmetry. apply Z.add_nocarry_lxor.
  exact Hland.
Qed.

Lemma binaryReadInt32_value b0 b1 b2 b3 rest :
  binaryReadInt32 (b0 :: b1 :: b2 :: b3 :: rest) =
    ((if byteZ b0 <? 128 then be32 b0 b1 b2 b3 else be32 b0 b1 b2 b3 - 2^32),
     None).
Proof.
  pose proof (byteZ_range b0). pose proof (byteZ_range b1).
  pose proof (byteZ_range b2). pose proof (byteZ_range b3).
  unfold binaryReadInt32, be32.
  rewrite (lor_shiftl_add (byteZ b2) (byteZ b3) 8) by lia.
  rewrite (lor_shiftl_add (byteZ b1) _ 16) by lia.
  rewrite (lor_shiftl_add (byteZ b0) _ 24) by lia.
  f_equal. unfold wrap32.
  destruct (Z.ltb_spec (byteZ b0) 128) as [Hlt|Hge].
  - rewrite Z.mod_small by lia. lia.
  - replace (byteZ b0 * 2^24 + (byteZ b1 * 2^16 + (byteZ b2 * 2^8 + byteZ b3)) + 2^31)
      with ((byteZ b0 * 2^24 + (byteZ b1 * 2^16 + (byteZ b2 * 2^8 + byteZ b3)) - 2^31)
            + 1 * 2^32) by lia.
    rewrite Z.mod_add by lia. rewrite Z.mod_small by lia. lia.
Qed.

Lemma read_buffer_shape (data : bytes) :
  exists b0 b1 b2 b3 b4 b5,
    firstn ERR_RESPONSE_LEN (data ++ repeat x00 ERR_RESPONSE_LEN)
      = [b0; b1; b2; b3; b4; b5].
Proof.
  assert (Hlen : List.length
            (firstn ERR_RESPONSE_LEN (data ++ repeat x00 ERR_RESPONSE_LEN))
          = 6%nat).
  { rewrite length_firstn, length_app, repeat_length.
    unfold ERR_RESPONSE_LEN. lia. }
  destruct (firstn ERR_RESPONSE_LEN (data ++ repeat x00 ERR_RESPONSE_LEN))
    as [|b0 [|b1 [|b2 [|b3 [|b4 [|b5 [|b6 l]]]]]]]; try discriminate Hlen.
  eauto 7.
Qed.

(** X9. The goroutines that [startRead] starts.  When the read fails:
    one [tryReset] for its connection and no [saveErr].  When the read
    succeeds: no [tryReset], and one [saveErr] exactly when the first byte
    of the buffer is [ERR_RESPONSE_CMD] and the second is a status of
    [ApplePushResponses]; the report then carries these two bytes and the
    last four bytes of the buffer read as a signed 32-bit number, most
    significant byte first.  The number of bytes that [Read] returned is
    not looked at: the bytes that were not received are zero. *)
Theorem startRead_reports conn m :
  exists m' b0 b1 b2 b3 b4 b5,
    startRead E conn m = Ok tt m' /\
    firstn ERR_RESPONSE_LEN (fst (Read E conn) ++ repeat x00 ERR_RESPONSE_LEN)
      = [b0; b1; b2; b3; b4; b5] /\
    (snd (Read E conn) <> None ->
       resetRequests (newEvents m m') = [conn] /\
       savedErrs (newEvents m m') = []) /\
    (snd (Read E conn) = None ->
       resetRequests (newEvents m m') = [] /\
       savedErrs (newEvents m m') =
         if (byteZ b0 =? ERR_RESPONSE_CMD E)
         then match ApplePushResponses E (byteZ b1) with
              | Some _ =>
                  [mkErrResponse (byteZ b0) (byteZ b1)
                     (if byteZ b2 <? 128 then be32 b2 b3 b4 b5
                      else be32 b2 b3 b4 b5 - 2^32)]
              | None => []
              end
         else []).
Proof.
  destruct (read_buffer_shape (fst (Read E conn)))
    as (b0 & b1 & b2 & b3 & b4 & b5 & Hbuf).
  unfold startRead, ioRead. cbv zeta. unfold_prims. rewrite !Hbuf.
  cbn -[binaryReadInt32 Z.eqb].
  rewrite binaryReadInt32_value. cbn -[Z.eqb Z.ltb be32 Z.sub Z.pow].
  destruct (snd (Read E conn)) as [e|].
  - eexists _, b0, b1, b2, b3, b4, b5. split; [reflexivity|].
    split; [reflexivity|].
    erewrite newEvents_app by (cbn [trace]; rewrite <- ?app_assoc; reflexivity).
    split; [intros _; split; reflexivity | intros H; discriminate H].
  - destruct (byteZ b0 =? ERR_RESPONSE_CMD E) eqn:Hcmd; cbn [negb];
      [destruct (ApplePushResponses E (byteZ b1)) eqn:Htab|].
    all: eexists _, b0, b1, b2, b3, b4, b5; split; [reflexivity|].
    all: split; [reflexivity|].
    all: erewrite newEvents_app
           by (cbn [trace]; rewrite <- ?app_assoc; reflexivity).
    all: rewrite ?Hcmd, ?Htab.
    all: split; [intros H; contradiction | intros _; split; reflexivity].
Qed.


(** ** The internal channel *)

Lemma saveErrs_buffered l : forall m,
  running (cl m) = true ->
  closed (errChan (cl m)) = false ->
  Z.of_nat (List.length (buf (errChan (cl m))) + List.length l)
    <= cap (errChan (cl m)) ->
  exists m',
    run E (map OpSaveErr l) m = Ok tt m' /\
    running (cl m') = true /\
    closed (errChan (cl m')) = false /\
    cap (errChan (cl m')) = cap (errChan (cl m)) /\
    buf (errChan (cl m')) = buf (errChan (cl m)) ++ l.
Proof.
  induction l as [|r l IH]; intros m Hrun Hcl Hlen.
  - exists m. cbn. rewrite app_nil_r. auto.
  - cbn [map]. rewrite run_cons. cbn [step].
    unfold saveErr, bind, getClient. rewrite Hrun. cbn [negb].
    unfold chanSend. rewrite Hcl.
    cbn [List.length] in Hlen.
    destruct (Z.ltb_spec (Z.of_nat (List.length (buf (errChan (cl m)))))
                (cap (errChan (cl m)))) as [Hlt|Hge]; [|lia].
    unfold_prims. cbn.
    match goal with |- context [run E (map OpSaveErr l) ?m0] =>
      destruct (IH m0) as (m' & HR & Hr' & Hc' & Hcap' & Hb')
    end; [exact Hrun | reflexivity | |].
    { cbn -[Z.of_nat List.length Nat.add]. rewrite length_app.
      cbn [List.length]. lia. }
    exists m'. cbn in Hcap', Hb'.
    rewrite HR, Hcap', Hb', <- app_assoc. auto.
Qed.

(** X10. On a client made by [create], reports handed to [saveErr] and not
    yet received are buffered in [errChan] in the order of the calls, up to
    ten of them; the consumer's receive then takes the oldest one.  With
    ten reports buffered a further [saveErr] does not return: it blocks in
    the channel send, inside the client's lock. *)
Theorem saveErr_buffers_ten gateway h l :
  (List.length l <= 10)%nat ->
  exists m',
    run E (map OpSaveErr l) (machineOf (create gateway (boot h))) = Ok tt m' /\
    buf (errChan (cl m')) = l /\
    running (cl m') = true /\
    (forall r rest, l = r :: rest ->
       exists m2, chanRecv m' = Ok (Some r) m2 /\
                  buf (errChan (cl m2)) = rest) /\
    (List.length l = 10%nat -> forall r, saveErr r m' = Block m').
Proof.
  intros Hlen.
  destruct (saveErrs_buffered l (machineOf (create gateway (boot h))))
    as (m' & HR & Hrun & Hcl & Hcap & Hbuf); try reflexivity.
  { cbn. lia. }
  cbn in Hcap, Hbuf.
  exists m'. split; [exact HR|]. split; [exact Hbuf|]. split; [exact Hrun|].
  split.
  - intros r rest ->. unfold chanRecv. rewrite Hbuf. unfold_prims. cbn.
    eexists. split; reflexivity.
  - intros H10 r. unfold saveErr, bind, getClient. rewrite Hrun. cbn [negb].
    unfold chanSend. rewrite Hcl, Hbuf, Hcap, H10. reflexivity.
Qed.

(** ** Stopping *)

Lemma step_keeps_running o m :
  o <> OpClose ->
  running (cl (machineOf (step E o m))) = running (cl m).
Proof.
  intros Hne. destruct o; cbn [step]; try contradiction.
  - destruct (running (cl m)) eqn:Hrun.
    + destruct (Send_spec E pn m Hrun) as (r & m' & evs & HS & _ & Hr & _).
      unfold bind. rewrite HS. exact Hr.
    + unfold bind. rewrite (Send_not_running E _ _ Hrun). exact Hrun.
  - unfold Connect, bind, getClient.
    destruct (running (cl m)) eqn:Hrun; cbn [negb]; [|exact Hrun].
    destruct (apnsConnection (cl m)); [exact Hrun|].
    destruct (openConnection_spec E m)
      as (r & m' & evs & HS & _ & (Hr & _) & _).
    rewrite HS. cbn. congruence.
  - unfold tryReset, bind, getClient.
    destruct (running (cl m)) eqn:Hrun; cbn [negb]; [|exact Hrun].
    destruct (connPtr_eqb (apnsConnection (cl m)) conn); cbn; exact Hrun.
  - unfold saveErr, bind, getClient.
    destruct (running (cl m)) eqn:Hrun; cbn [negb]; [|exact Hrun].
    unfold chanSend.
    destruct (closed (errChan (cl m))); [exact Hrun|].
    destruct (Z.of_nat (List.length (buf (errChan (cl m)))) <? cap (errChan (cl m)));
      unfold_prims; cbn; exact Hrun.
  - unfold handleErrResponse, bind, getClient.
    destruct (running (cl m)) eqn:Hrun; cbn [negb]; [|exact Hrun].
    destruct (Command rsp =? 0); [exact Hrun|].
    destruct (Tail (sentQ (cl m)) (heap m) (RspIdentifier rsp)) as [[p|] l];
      unfold_prims; cbn; [destruct l; cbn|]; exact Hrun.
  - unfold bind, chanRecv.
    destruct (buf (errChan (cl m))); [destruct (closed (errChan (cl m)))|];
      cbn; reflexivity.
  - destruct (startRead_spec E conn m) as (m' & evs & -> & Hcl & _).
    cbn. rewrite Hcl. reflexivity.
Qed.

Lemma step_stopped_keeps_connection o m :
  running (cl m) = false ->
  apnsConnection (cl (machineOf (step E o m))) = apnsConnection (cl m).
Proof.
  intros Hrun. destruct o; cbn [step].
  - unfold bind. rewrite (Send_not_running E _ _ Hrun). reflexivity.
  - unfold Connect, bind, getClient. rewrite Hrun. reflexivity.
  - unfold Close, bind, getClient. rewrite Hrun. reflexivity.
  - unfold tryReset, bind, getClient. rewrite Hrun. reflexivity.
  - unfold saveErr, bind, getClient. rewrite Hrun. reflexivity.
  - unfold handleErrResponse, bind, getClient. rewrite Hrun. reflexivity.
  - unfold bind, chanRecv.
    destruct (buf (errChan (cl m))); [destruct (closed (errChan (cl m)))|];
      cbn; reflexivity.
  - destruct (startRead_spec E conn m) as (m' & evs & -> & Hcl & _).
    cbn. rewrite Hcl. reflexivity.
Qed.

Lemma Close_drops_connection m :
  running (cl m) = true ->
  apnsConnection (cl (machineOf (Close m))) = None \/
  exists msg, Close m = Panic msg (machineOf (Close m)) /\
              closed (errChan (cl m)) = true.
Proof.
  intros Hrun. unfold Close, chanClose. unfold_prims. rewrite Hrun. cbn.
  destruct (closed (errChan (cl m))) eqn:Hcl; cbn.
  - right. eexists. split; reflexivity.
  - left. destruct (apnsConnection (cl m)) eqn:Hc; cbn; [reflexivity | exact Hc].
Qed.

Lemma step_stopped_no_connection o m :
  chanInv m ->
  (running (cl m) = false -> apnsConnection (cl m) = None) ->
  running (cl (machineOf (step E o m))) = false ->
  apnsConnection (cl (machineOf (step E o m))) = None.
Proof.
  intros Hinv Hno Hstop.
  destruct (running (cl m)) eqn:Hrun.
  - destruct o; try (rewrite step_keeps_running in Hstop by discriminate;
                     congruence).
    cbn [step] in *.
    destruct (Close_drops_connection m Hrun) as [H | (msg & _ & Hcl)];
      [exact H|].
    destruct Hinv as (Hc & _). rewrite Hrun, Hcl in Hc. discriminate.
  - rewrite step_stopped_keeps_connection by exact Hrun. apply Hno. reflexivity.
Qed.

Lemma run_stopped_no_connection ops : forall m,
  chanInv m ->
  (running (cl m) = false -> apnsConnection (cl m) = None) ->
  running (cl (machineOf (run E ops m))) = false ->
  apnsConnection (cl (machineOf (run E ops m))) = None.
Proof.
  induction ops as [|o ops IH]; intros m Hinv Hno; [exact Hno|].
  rewrite run_cons.
  destruct (step_chanInv E o m Hinv) as (_ & Hinv').
  pose proof (step_stopped_no_connection o m Hinv Hno) as Hs.
  destruct (step E o m) as [[] m1|msg m1|m1]; cbn in Hs, Hinv' |- *; auto.
Qed.

(** X11. A stopped client holds no connection: along every sequence of
    steps from [create], whenever [running] is false the cached connection
    is nil.  ([Close] clears it, and no method sets it on a stopped
    client.) *)
Theorem stopped_client_holds_no_connection gateway h ops :
  running (cl (machineOf (run E ops (machineOf (create gateway (boot h))))))
    = false ->
  apnsConnection
    (cl (machineOf (run E ops (machineOf (create gateway (boot h)))))) = None.
Proof.
  apply run_stopped_no_connection.
  - unfold chanInv. cbn. auto.
  - cbn. discriminate.
Qed.

(** X12. [Close] on a running client whose [errChan] is open: the client
    stops, the channel is closed, the cached connection is cleared, and a
    goroutine closing the connection is started exactly when there was one;
    the Replay Queue, the counter and the reports still buffered in
    [errChan] stay as they were. *)
Theorem Close_effect m :
  running (cl m) = true ->
  closed (errChan (cl m)) = false ->
  exists m',
    Close m = Ok tt m' /\
    running (cl m') = false /\
    closed (errChan (cl m')) = true /\
    apnsConnection (cl m') = None /\
    connCloseTasks (newEvents m m') =
      match apnsConnection (cl m) with Some cn => [cn] | None => [] end /\
    chanCloses (newEvents m m') = 1%nat /\
    sentQ (cl m') = sentQ (cl m) /\
    counter (cl m') = counter (cl m) /\
    buf (errChan (cl m')) = buf (errChan (cl m)) /\
    heap m' = heap m.
Proof.
  intros Hrun Hcl. unfold Close, chanClose. unfold_prims.
  rewrite Hrun. cbn. rewrite Hcl. cbn.
  destruct (apnsConnection (cl m)) as [cn|] eqn:Hconn; cbn.
  - eexists. split; [reflexivity|]. cbn.
    erewrite newEvents_app by (cbn [trace]; rewrite <- ?app_assoc; reflexivity).
    repeat split.
  - eexists. split; [reflexivity|]. cbn.
    erewrite newEvents_app by (cbn [trace]; rewrite <- ?app_assoc; reflexivity).
    repeat split. exact Hconn.
Qed.


(** ** Construction *)

Lemma string_length_0 (s : string) : String.length s = 0%nat <-> s = EmptyString.
Proof.
  destruct s; cbn; split; intros H; try reflexivity; discriminate.
Qed.

(** X13. The clients of the two constructors and where their key pair
    comes from.  Both are running, with counter 0, an empty Replay Queue of
    capacity [MAX_SEND_Q], no connection, and one consumer goroutine
    started.  The first [getCertificate] of a client of [NewClient] calls
    [LoadX509KeyPair] on the two paths; that of a client of [BareClient]
    calls [X509KeyPair] on the two blocks when at least one block is not
    empty, and [LoadX509KeyPair] on two empty paths when both are empty. *)
Theorem constructors_and_key_source gateway a b h :
  (let m := machineOf (NewClient gateway a b (boot h)) in
   running (cl m) = true /\ counter (cl m) = 0 /\
   sentQ (cl m) = mkQueue [] MAX_SEND_Q /\
   apnsConnection (cl m) = None /\
   trace m = [Go GoConsumeErrChan] /\
   exists r m', getCertificate E m = Ok r m' /\
                newEvents m m' = [IoLoadX509KeyPair a b r]) /\
  (let m := machineOf (BareClient gateway a b (boot h)) in
   running (cl m) = true /\ counter (cl m) = 0 /\
   sentQ (cl m) = mkQueue [] MAX_SEND_Q /\
   apnsConnection (cl m) = None /\
   trace m = [Go GoConsumeErrChan] /\
   (a <> EmptyString \/ b <> EmptyString ->
    exists r m', getCertificate E m = Ok r m' /\
                 newEvents m m' = [IoX509KeyPair a b r]) /\
   (a = EmptyString -> b = EmptyString ->
    exists r m', getCertificate E m = Ok r m' /\
                 newEvents m m' =
                   [IoLoadX509KeyPair EmptyString EmptyString r])).
Proof.
  split; cbn zeta.
  - repeat (split; [reflexivity|]).
    match goal with |- context [getCertificate E ?m0] =>
      destruct (getCertificate_cases m0)
        as [(Hk & _) | (_ & crt & err & ev & HG & Hev)]
    end; [exfalso; apply Hk; reflexivity|].
    cbn in HG, Hev.
    destruct Hev as [(_ & _ & _ & ->) | ([H|H] & _)];
      [| exfalso; apply H; reflexivity | exfalso; apply H; reflexivity].
    eexists _, _. split; [exact HG|].
    erewrite newEvents_app by reflexivity. reflexivity.
  - repeat (split; [reflexivity|]).
    match goal with |- context [getCertificate E ?m0] =>
      destruct (getCertificate_cases m0)
        as [(Hk & _) | (_ & crt & err & ev & HG & Hev)]
    end; [exfalso; apply Hk; reflexivity|].
    cbn in HG, Hev. split.
    + intros Hne.
      destruct Hev as [(Ha & Hb & _) | (_ & _ & ->)].
      * apply string_length_0 in Ha, Hb. destruct Hne; contradiction.
      * eexists _, _. split; [exact HG|].
        erewrite newEvents_app by reflexivity. reflexivity.
    + intros -> ->.
      destruct Hev as [(_ & _ & _ & ->) | ([H|H] & _)];
        [| exfalso; apply H; reflexivity | exfalso; apply H; reflexivity].
      eexists _, _. split; [exact HG|].
      erewrite newEvents_app by reflexivity. reflexivity.
Qed.

(** ** Handling a report *)

(** X14. What [handleErrResponse] never does, whatever the report and the
    state: it makes no call to the network, and leaves the notifications,
    the flag [running], the counter, the cached connection, [errChan] and
    the capacity of the Replay Queue as they are; the queue itself is
    either unchanged or empty afterwards.  A report with command 0 and any
    report on a stopped client leave the whole machine unchanged. *)
Theorem handleErrResponse_frame res m :
  exists m',
    handleErrResponse res m = Ok tt m' /\
    heap m' = heap m /\ calls m' = calls m /\ nextConn m' = nextConn m /\
    netIo (newEvents m m') = [] /\
    running (cl m') = running (cl m) /\
    counter (cl m') = counter (cl m) /\
    apnsConnection (cl m') = apnsConnection (cl m) /\
    errChan (cl m') = errChan (cl m) /\
    limit (sentQ (cl m')) = limit (sentQ (cl m)) /\
    (sentQ (cl m') = sentQ (cl m) \/ items (sentQ (cl m')) = []) /\
    (Command res = 0 \/ running (cl m) = false -> m' = m).
Proof.
  unfold handleErrResponse, bind, getClient.
  destruct (running (cl m)) eqn:Hrun; cbn [negb].
  2:{ exists m. unfold ret, newEvents. rewrite skipn_all.
      repeat split; auto. }
  destruct (Z.eqb_spec (Command res) 0) as [Hz|Hnz].
  { exists m. unfold ret, newEvents. rewrite skipn_all.
    repeat split; auto. }
  destruct (Tail (sentQ (cl m)) (heap m) (RspIdentifier res)) as [[p|] l];
    unfold_prims; cbn; [destruct l; cbn|].
  all: eexists; split; [reflexivity|]; cbn.
  all: erewrite newEvents_app
         by (cbn [trace]; rewrite <- ?app_assoc; reflexivity).
  all: repeat split; auto; try (intros [H|H]; [contradiction | discriminate]).
Qed.


(** ** How often [Send] connects *)

Lemma dials_app t1 t2 : dials (t1 ++ t2) = dials t1 ++ dials t2.
Proof.
  induction t1 as [|e t1 IH]; simpl; [reflexivity|].
  destruct e; simpl; rewrite ?IH; reflexivity.
Qed.

Lemma readersStarted_app t1 t2 :
  readersStarted (t1 ++ t2) = readersStarted t1 ++ readersStarted t2.
Proof.
  induction t1 as [|e t1 IH]; simpl; [reflexivity|].
  destruct e as [| t | | | | | | | | | |]; simpl; rewrite ?IH; try reflexivity.
  destruct t; simpl; rewrite ?IH; reflexivity.
Qed.

Ltac count_io :=
  cbn; rewrite ?dials_app, ?readersStarted_app, ?length_app; cbn.

Lemma openConnection_count m :
  exists r m' evs,
    openConnection E m = Ok r m' /\
    ioBound 1 m m' evs /\
    (r = None -> apnsConnection (cl m') = Some (nextConn m)).
Proof.
  destruct (openConnection_io m)
    as (r & m' & evs & HO & Ht & _ & _ & Hd & Hn & Hr).
  exists r, m', evs. split; [exact HO|]. split.
  - unfold ioBound. split; [exact Ht|]. split; [exact Hd|].
    split; [|lia].
    destruct r; [destruct Hr as (_ & -> & _) | destruct Hr as (_ & _ & -> & _)];
      cbn; lia.
  - intros ->. apply Hr.
Qed.

Lemma reconnectAndWrite_count payload e0 m :
  exists r m' evs,
    reconnectAndWrite E payload e0 m = Ok r m' /\ ioBound 1 m m' evs.
Proof.
  unfold reconnectAndWrite.
  unfold bind at 1. unfold logLine at 1, emit at 1.
  unfold bind at 1.
  match goal with |- context [openConnection E ?m0] =>
    destruct (openConnection_count m0)
      as (r & m1 & evs & -> & (Ht & Hd & Hrs & Hn) & Hr)
  end.
  cbn in Ht, Hn.
  destruct r as [e|]; [| specialize (Hr eq_refl)]; unfold_prims; cbn;
    [| rewrite Hr; cbn;
       destruct (SetWriteDeadline E (nDeadline (calls m1)) (nextConn m)) as [e|]; cbn;
       [| destruct (Write E (nWrite (calls m1)) (nextConn m) payload) as [e|]; cbn ] ].
  all: do 3 eexists; split; [reflexivity|]; unfold ioBound; cbn.
  all: split; [rewrite Ht, <- ?app_assoc; cbn; reflexivity|].
  all: count_io; repeat split; lia.
Qed.

Lemma connectAndWrite_count payload m :
  exists r m' evs,
    connectAndWrite E payload m = Ok r m' /\
    ioBound 2 m m' evs /\
    (apnsConnection (cl m) <> None -> ioBound 1 m m' evs).
Proof.
  assert (Hwrite : forall k m1 evs cn,
    ioBound k m m1 evs ->
    apnsConnection (cl m1) = Some cn ->
    exists r m' evs',
      (c <- getClient ;;
       err1 <- ioSetWriteDeadline E (apnsConnection c) ;;
       match err1 with
       | Some e => ret (Some e)
       | None =>
           err <- ioWrite E (apnsConnection c) payload ;;
           match err with
           | Some e => reconnectAndWrite E payload e
           | None => ret None
           end
       end) m1 = Ok r m' /\
      ioBound (S k) m m' evs').
  { intros k m1 evs cn (Ht & Hd & Hrs & Hn) Hcn.
    unfold_prims. cbn. rewrite Hcn. cbn.
    destruct (SetWriteDeadline E (nDeadline (calls m1)) cn) as [e|]; cbn.
    { do 3 eexists; split; [reflexivity|]; unfold ioBound; cbn.
      split; [rewrite Ht, <- ?app_assoc; cbn; reflexivity|].
      count_io; repeat split; lia. }
    destruct (Write E (nWrite (calls m1)) cn payload) as [e|]; cbn.
    - match goal with |- context [reconnectAndWrite E payload e ?m0] =>
        destruct (reconnectAndWrite_count payload e m0)
          as (r & m2 & evs2 & -> & (Ht2 & Hd2 & Hrs2 & Hn2))
      end.
      cbn in Ht2, Hn2.
      do 3 eexists; split; [reflexivity|]; unfold ioBound.
      split; [rewrite Ht2, Ht, <- ?app_assoc; cbn; reflexivity|].
      count_io; repeat split; lia.
    - do 3 eexists; split; [reflexivity|]; unfold ioBound; cbn.
      split; [rewrite Ht, <- ?app_assoc; cbn; reflexivity|].
      count_io; repeat split; lia. }
  unfold connectAndWrite.
  unfold bind at 1. unfold getClient at 1.
  destruct (apnsConnection (cl m)) as [cn|] eqn:Hconn.
  - unfold bind at 1. unfold ret at 1.
    destruct (Hwrite 0%nat m [] cn) as (r & m' & evs' & HW & Hb).
    { unfold ioBound. rewrite app_nil_r. cbn. repeat split; lia. }
    { exact Hconn. }
    exists r, m', evs'. split; [exact HW|]. split; [|intros _; exact Hb].
    destruct Hb as (Ht & Hd & Hrs & Hn). unfold ioBound.
    split; [exact Ht|]. repeat split; lia.
  - unfold bind at 1.
    destruct (openConnection_count m) as (r & m1 & evs & -> & Hb & Hr).
    destruct r as [e|].
    + unfold ret. do 3 eexists. split; [reflexivity|].
      split; [|intros H; exfalso; apply H; reflexivity].
      destruct Hb as (Ht & Hd & Hrs & Hn). unfold ioBound.
      split; [exact Ht|]. repeat split; lia.
    + destruct (Hwrite 1%nat m1 evs (nextConn m) Hb (Hr eq_refl))
        as (r & m' & evs' & HW & Hb').
      exists r, m', evs'. split; [exact HW|].
      split; [exact Hb' | intros H; exfalso; apply H; reflexivity].
Qed.

(** X15. One [Send] connects at most twice: it dials at most two times,
    starts at most two readers and allocates at most two connection objects;
    on a client that holds a connection, at most one of each (the
    reconnect after a failed write). *)
Theorem Send_connects_at_most_twice pn m :
  exists r m',
    Send E pn m = Ok r m' /\
    (List.length (dials (newEvents m m')) <= 2)%nat /\
    (List.length (readersStarted (newEvents m m')) <= 2)%nat /\
    (nextConn m <= nextConn m' <= 2 + nextConn m)%nat /\
    (apnsConnection (cl m) <> None ->
       (List.length (dials (newEvents m m')) <= 1)%nat /\
       (List.length (readersStarted (newEvents m m')) <= 1)%nat /\
       (nextConn m' <= 1 + nextConn m)%nat).
Proof.
  destruct (running (cl m)) eqn:Hrun.
  2:{ exists (Some "client is not running"%string), m.
      split; [apply Send_not_running; exact Hrun|].
      unfold newEvents. rewrite skipn_all. cbn. repeat split; lia. }
  unfold Send.
  unfold bind at 1. unfold getClient at 1. rewrite Hrun. cbn [negb].
  unfold_prims. cbn. rewrite Nat.eqb_refl.
  destruct (ToBytes E (mkPn (counter (cl m)) (Payload (heap m pn))))
    as [payload [e|]]; cbn.
  - eexists _, _. split; [reflexivity|]. cbn.
    unfold newEvents. cbn. rewrite skipn_all. cbn. repeat split; lia.
  - match goal with |- context [connectAndWrite E payload ?m0] =>
      destruct (connectAndWrite_count payload m0)
        as (r & m1 & evs & -> & (Ht & Hd & Hrs & Hn) & Hone)
    end.
    cbn in Ht, Hn, Hone.
    destruct r as [e|]; cbn.
    + eexists _, _. split; [reflexivity|]. cbn.
      erewrite newEvents_app by (rewrite Ht, <- ?app_assoc; reflexivity).
      count_io. split; [lia|]. split; [lia|]. split; [lia|].
      intros Hc. destruct (Hone Hc) as (_ & Hd1 & Hrs1 & Hn1).
      cbn in Hn1. lia.
    + eexists _, _. split; [reflexivity|]. cbn.
      erewrite newEvents_app by (rewrite Ht; reflexivity).
      split; [lia|]. split; [lia|]. split; [lia|].
      intros Hc. destruct (Hone Hc) as (_ & Hd1 & Hrs1 & Hn1).
      cbn in Hn1. lia.
Qed.


(** ** The server name *)

Lemma beforeColon_host host rest :
  hasColon host = false ->
  beforeColon (host ++ String ":"%char rest) = host.
Proof.
  induction host as [|c host IH]; cbn; intros H; [reflexivity|].
  apply orb_false_elim in H. destruct H as (Hc & Hh).
  rewrite Hc, (IH Hh). reflexivity.
Qed.

(** X16. For a gateway address [host:port] whose host part holds no colon,
    [openConnection] dials the whole address and gives the host part as
    server name to the TLS handshake; when it succeeds exactly one handshake
    was made. *)
Theorem openConnection_server_name m host port :
  hasColon host = false ->
  Gateway (cl m) = (host ++ String ":"%char port)%string ->
  exists r m',
    openConnection E m = Ok r m' /\
    (forall g, In g (dialTargets (newEvents m m')) -> g = Gateway (cl m)) /\
    (forall n, In n (handshakeNames (newEvents m m')) -> n = host) /\
    (r = None -> handshakeNames (newEvents m m') = [host]).
Proof.
  intros Hhost Hgw.
  pose proof (beforeColon_host host port Hhost) as Hbc. rewrite <- Hgw in Hbc.
  unfold openConnection.
  unfold bind at 1. unfold logLine at 1, emit at 1.
  unfold bind at 1.
  match goal with |- context [getCertificate E ?m0] =>
    destruct (getCertificate_cases m0)
      as [(Hk & ->) | (Hk & crt & err & ev & -> & Hev)]
  end; cbn in Hk.
  - unfold_prims. cbn. rewrite Hbc.
    destruct (DialTimeout E (nDial (calls m)) (Gateway (cl m))) as [e|]; cbn;
      [| destruct (Handshake E (nHandshake (calls m)) (nextConn m)) as [e|]; cbn].
    all: eexists _, _; split; [reflexivity|]; cbn.
    all: erewrite newEvents_app
           by (cbn [trace]; rewrite <- ?app_assoc; reflexivity).
    all: cbn; repeat split; try (intros H; discriminate H).
    all: intros x Hx; cbn in Hx; intuition.
  - cbn in Hev.
    assert (Hsub : ev = IoLoadX509KeyPair (CertificateFile (cl m)) (KeyFile (cl m)) err
                   \/ ev = IoX509KeyPair (CertificateBase64 (cl m)) (KeyBase64 (cl m)) err)
      by (destruct Hev as [(_ & _ & _ & ->) | (_ & _ & ->)]; auto).
    clear Hev.
    destruct err as [e|]; unfold_prims; cbn; rewrite ?Hbc;
      [| destruct (DialTimeout E (nDial (calls m)) (Gateway (cl m))) as [e|]; cbn;
         [| destruct (Handshake E (nHandshake (calls m)) (nextConn m)) as [e|]; cbn]].
    all: eexists _, _; split; [reflexivity|]; cbn.
    all: erewrite newEvents_app
           by (cbn [trace]; rewrite <- ?app_assoc; reflexivity).
    all: destruct Hsub as [-> | ->]; cbn.
    all: repeat split; try (intros H; discriminate H).
    all: intros x Hx; cbn in Hx; intuition.
Qed.

End More.

(** * The further properties at concrete inputs *)

Lemma stale_reader_keeps_new_connection_witness :
  exists m',
    openConnection envOk sent3M = Ok None m' /\
    apnsConnection (cl m') = Some 1%nat /\
    tryReset (Some 0%nat) m' = Ok tt m'.
Proof.
  assert (HO : openConnection envOk sent3M
               = Ok None (machineOf (openConnection envOk sent3M)))
    by (vm_compute; reflexivity).
  assert (Hrun : running (cl (machineOf (openConnection envOk sent3M))) = true)
    by (vm_compute; reflexivity).
  assert (Hn : nextConn sent3M = 1%nat) by (vm_compute; reflexivity).
  assert (Hc : (0 < nextConn sent3M)%nat) by (rewrite Hn; lia).
  destruct (stale_reader_keeps_new_connection envOk sent3M _ 0%nat HO Hrun Hc)
    as (H1 & H2 & _).
  rewrite Hn in H1.
  eexists. split; [exact HO|]. split; [exact H1 | exact H2].
Defined.

Lemma Send_result_meaning_witness :
  exists r m',
    Send envOk 0%nat testMachine = Ok r m' /\
    r = None /\
    writes (newEvents testMachine m') = [None] /\
    sentQ (cl m') = Append (sentQ (cl testMachine)) 0%nat.
Proof.
  assert (Hrun : running (cl testMachine) = true) by reflexivity.
  destruct (Send_result_meaning envOk 0%nat testMachine Hrun)
    as (r & m' & HS & Hnil & _).
  assert (Hm : machineOf (Send envOk 0%nat testMachine) = m')
    by exact (f_equal machineOf HS).
  assert (Hr : r = None).
  { assert (H : Send envOk 0%nat testMachine
                = Ok None (machineOf (Send envOk 0%nat testMachine)))
      by (vm_compute; reflexivity).
    rewrite Hm in H.
    pose proof (eq_trans (eq_sym HS) H) as Heq.
    exact (f_equal (fun x => match x with Ok a _ => a | _ => None end) Heq). }
  destruct (Hnil Hr) as (Hw & _ & Hq & _).
  exists r, m'. split; [exact HS|]. split; [exact Hr|].
  split; [exact Hw | exact Hq].
Defined.

Lemma consecutive_sends_distinct_identifiers_witness :
  exists m',
    run envDown (map OpSend [0%nat; 1%nat; 2%nat]) testMachine = Ok tt m' /\
    Identifier (heap m' 0%nat) = 0 /\
    Identifier (heap m' 2%nat) = 2 /\
    Identifier (heap m' 0%nat) <> Identifier (heap m' 2%nat).
Proof.
  assert (HU : 0 < IdentifierUbound envDown <= 2^31 - 1) by (cbn; lia).
  assert (Hcnt : counter (cl testMachine) = 0) by reflexivity.
  assert (Hc : 0 <= counter (cl testMachine) < IdentifierUbound envDown)
    by (rewrite Hcnt; cbn; lia).
  assert (Hrun : running (cl testMachine) = true) by reflexivity.
  assert (Hnd : NoDup [0%nat; 1%nat; 2%nat]).
  { repeat constructor; cbn; intuition discriminate. }
  assert (Hlen : Z.of_nat (List.length [0%nat; 1%nat; 2%nat])
                 <= IdentifierUbound envDown) by (cbn; lia).
  destruct (consecutive_sends_distinct_identifiers envDown _ testMachine
              HU Hc Hrun Hnd Hlen) as (m' & HR & _ & Hord & Hdist).
  exists m'. split; [exact HR|].
  split; [rewrite (Hord 0%nat 0%nat eq_refl), Hcnt; reflexivity|].
  split; [rewrite (Hord 2%nat 2%nat eq_refl), Hcnt; reflexivity|].
  apply Hdist; cbn; auto.
Defined.

Lemma Send_reuses_cached_connection_witness :
  apnsConnection (cl sent3M) = Some 0%nat /\
  Send envOk 5%nat sent3M = Ok None (machineOf (Send envOk 5%nat sent3M)) /\
  newEvents sent3M (machineOf (Send envOk 5%nat sent3M)) =
    [IoSetWriteDeadline 0%nat None; IoWrite 0%nat [] None] /\
  apnsConnection (cl (machineOf (Send envOk 5%nat sent3M))) = Some 0%nat.
Proof.
  assert (Hrun : running (cl sent3M) = true) by reflexivity.
  assert (Hconn : apnsConnection (cl sent3M) = Some 0%nat) by reflexivity.
  assert (HS : Send envOk 5%nat sent3M
               = Ok None (machineOf (Send envOk 5%nat sent3M)))
    by (vm_compute; reflexivity).
  destruct (Send_reuses_cached_connection envOk 5%nat sent3M 0%nat _
              Hrun Hconn HS) as (Hev & Hc & _).
  split; [exact Hconn|]. split; [exact HS|]. split; [exact Hev | exact Hc].
Defined.

Lemma Send_deadline_error_not_retried_witness :
  exists m',
    Send envNoDeadline 5%nat sent3M = Ok (Some "i/o timeout"%string) m' /\
    writes (newEvents sent3M m') = [] /\
    dials (newEvents sent3M m') = [] /\
    apnsConnection (cl m') = None.
Proof.
  assert (Hrun : running (cl sent3M) = true) by reflexivity.
  assert (Hconn : apnsConnection (cl sent3M) = Some 0%nat) by reflexivity.
  assert (Hser : snd (ToBytes envNoDeadline
                        (mkPn (counter (cl sent3M)) (Payload (heap sent3M 5%nat))))
                 = None) by reflexivity.
  assert (Hdl : SetWriteDeadline envNoDeadline (nDeadline (calls sent3M)) 0%nat
                = Some "i/o timeout"%string) by reflexivity.
  destruct (Send_deadline_error_not_retried envNoDeadline 5%nat sent3M 0%nat
              _ Hrun Hconn Hser Hdl) as (m' & HS & _ & Hw & Hd & Hc & _).
  exists m'. split; [exact HS|]. split; [exact Hw|].
  split; [exact Hd | exact Hc].
Defined.

Lemma saveErr_buffers_ten_witness :
  exists m',
    run envOk (map OpSaveErr tenReports)
      (machineOf (create "gateway.push.apple.com:2195" (boot testHeap)))
      = Ok tt m' /\
    buf (errChan (cl m')) = tenReports /\
    saveErr (report 10) m' = Block m' /\
    exists m2, chanRecv m' = Ok (Some (report 0)) m2.
Proof.
  assert (Hlen : (List.length tenReports <= 10)%nat) by (vm_compute; lia).
  destruct (saveErr_buffers_ten envOk "gateway.push.apple.com:2195" testHeap
              tenReports Hlen) as (m' & HR & Hbuf & _ & Hrecv & Hblock).
  exists m'. split; [exact HR|]. split; [exact Hbuf|].
  split; [apply Hblock; reflexivity|].
  destruct (Hrecv (report 0) (tl tenReports) eq_refl) as (m2 & H2 & _).
  exists m2. exact H2.
Defined.

Lemma stopped_client_holds_no_connection_witness :
  running
    (cl (machineOf
           (run envOk [OpSend 0%nat; OpClose]
              (machineOf (create "gateway.push.apple.com:2195" (boot testHeap))))))
    = false /\
  apnsConnection
    (cl (machineOf
           (run envOk [OpSend 0%nat; OpClose]
              (machineOf (create "gateway.push.apple.com:2195" (boot testHeap))))))
    = None.
Proof.
  assert (Hstop : running
    (cl (machineOf
           (run envOk [OpSend 0%nat; OpClose]
              (machineOf (create "gateway.push.apple.com:2195" (boot testHeap))))))
    = false) by (vm_compute; reflexivity).
  split; [exact Hstop|].
  exact (stopped_client_holds_no_connection envOk _ _ _ Hstop).
Defined.

Lemma Close_effect_witness :
  exists m',
    Close sent3M = Ok tt m' /\
    running (cl m') = false /\
    apnsConnection (cl m') = None /\
    connCloseTasks (newEvents sent3M m') = [0%nat] /\
    items (sentQ (cl m')) = [0%nat; 1%nat; 2%nat].
Proof.
  assert (Hrun : running (cl sent3M) = true) by reflexivity.
  assert (Hcl : closed (errChan (cl sent3M)) = false) by reflexivity.
  assert (Hconn : apnsConnection (cl sent3M) = Some 0%nat) by reflexivity.
  assert (Hitems : items (sentQ (cl sent3M)) = [0%nat; 1%nat; 2%nat])
    by reflexivity.
  destruct (Close_effect sent3M Hrun Hcl)
    as (m' & HC & Hr & _ & Hc & Ht & _ & Hq & _).
  rewrite Hconn in Ht.
  exists m'. split; [exact HC|]. split; [exact Hr|]. split; [exact Hc|].
  split; [exact Ht|]. rewrite Hq. exact Hitems.
Defined.

Lemma openConnection_server_name_witness :
  exists r m',
    openConnection envOk testMachine = Ok r m' /\
    handshakeNames (newEvents testMachine m') = ["gateway.push.apple.com"%string].
Proof.
  assert (Hhost : hasColon "gateway.push.apple.com" = false) by reflexivity.
  assert (Hgw : Gateway (cl testMachine)
                = ("gateway.push.apple.com" ++ String ":"%char "2195")%string)
    by reflexivity.
  destruct (openConnection_server_name envOk testMachine _ _ Hhost Hgw)
    as (r & m' & HO & _ & _ & Hone).
  assert (Hm : machineOf (openConnection envOk testMachine) = m')
    by exact (f_equal machineOf HO).
  assert (Hr : r = None).
  { assert (H : openConnection envOk testMachine
                = Ok None (machineOf (openConnection envOk testMachine)))
      by (vm_compute; reflexivity).
    rewrite Hm in H.
    pose proof (eq_trans (eq_sym HO) H) as Heq.
    exact (f_equal (fun x => match x with Ok a _ => a | _ => None end) Heq). }
  exists r, m'. split; [exact HO | exact (Hone Hr)].
Defined.
